(** * PyPI crawler ([all_package_7.py]): a shallow embedding and its properties

    The crawler fetches a candidate list from the recent-updates feed,
    fetches the JSON metadata of every candidate, keeps the packages whose
    current release was uploaded on or after 2025-07-01 and downloads one
    artifact for each of them.

    The Python code works on whatever [response.json()] returns, so the
    metadata is modelled as a dynamically typed JSON value and every
    operation the code applies to it ([x[k]], [k in x], truthiness,
    [.endswith], [.replace], iteration) has the outcome Python gives it,
    exceptions included.  A [str] is the sequence of its code points, taken
    below 256.  The network, the file system, the clock and the logger are
    modelled by a world state with a chronological event trace; the disk is
    a map from path texts to files; the behaviour of the remote server and
    of the disk is an arbitrary history-dependent oracle. *)

From Stdlib Require Import ZArith List String Ascii Bool Lia.
From stdpp Require Import base option list gmap strings.

Local Open Scope string_scope.
Local Open Scope list_scope.
Local Open Scope Z_scope.
Local Set Warnings "-register-all".

(** ** Python values and exceptions *)

(** A value obtained by [json.loads]: [None], [bool], [int], [str], [list]
    and [dict].  A dict is given by its items in insertion order and is read
    through [assoc], which returns the first binding of a key.  JSON numbers
    with a fraction or an exponent (Python floats) are not represented. *)
Inductive value : Type :=
| VNone
| VBool (b : bool)
| VInt (n : Z)
| VStr (s : string)
| VList (l : list value)
| VDict (d : list (string * value)).

(** The exception classes the code can meet.  [RequestException] stands for
    what [Session.get] raises (connection error, timeout, invalid URL, too
    many redirects); [HTTPError] and [JSONDecodeError] are its subclasses
    raised by [Response.raise_for_status] and by [Response.json] (requests
    2.27 and later); [ParseError] is the one of [xml.etree.ElementTree];
    [RecursionError] is what the interpreter raises when calls nest deeper
    than its limit. *)
Inductive exn : Type :=
| KeyError | ValueError | IndexError | TypeError | AttributeError
| RequestException | HTTPError | JSONDecodeError
| OSError | ParseError | RecursionError.

(** [isinstance(e, requests.RequestException)] *)
Definition is_RequestException (e : exn) : bool :=
  match e with
  | RequestException | HTTPError | JSONDecodeError => true
  | _ => false
  end.

(** The tuple [(KeyError, ValueError, IndexError)] of the handler in
    [is_updated_since_july_2025]. *)
Definition is_lookup_or_parse_error (e : exn) : bool :=
  match e with
  | KeyError | ValueError | IndexError => true
  | _ => false
  end.

(** Outcome of evaluating an expression: a value or a raised exception. *)
Inductive res (A : Type) : Type :=
| Ok (a : A)
| Raise (e : exn).
Arguments Ok {A} a.
Arguments Raise {A} e.

Definition res_bind {A B} (r : res A) (k : A -> res B) : res B :=
  match r with
  | Ok a => k a
  | Raise e => Raise e
  end.

Notation "x <- c ;; k" := (res_bind c (fun x => k))
  (at level 100, c at next level, right associativity).

(** ** Strings *)

Fixpoint str_startswith (p s : string) : bool :=
  match p, s with
  | EmptyString, _ => true
  | String a p', String b s' => Ascii.eqb a b && str_startswith p' s'
  | String _ _, EmptyString => false
  end.

Fixpoint str_rev_onto (s acc : string) : string :=
  match s with
  | EmptyString => acc
  | String a s' => str_rev_onto s' (String a acc)
  end.

Definition str_rev (s : string) : string := str_rev_onto s EmptyString.

(** [s.endswith(suffix)] *)
Definition str_endswith (s suffix : string) : bool :=
  str_startswith (str_rev suffix) (str_rev s).

(** [needle in hay] for two strings. *)
Fixpoint str_contains (needle hay : string) : bool :=
  str_startswith needle hay ||
  match hay with
  | EmptyString => false
  | String _ hay' => str_contains needle hay'
  end.

(** [s.replace(old, new)] for a one-character [old]. *)
Fixpoint str_replace (old : ascii) (new s : string) : string :=
  match s with
  | EmptyString => EmptyString
  | String a s' =>
      if Ascii.eqb a old then new +:+ str_replace old new s'
      else String a (str_replace old new s')
  end.

Definition chars (s : string) : list string :=
  map (fun a => String a EmptyString) (list_ascii_of_string s).

(** ** Python operations on values *)

Fixpoint assoc {A} (k : string) (d : list (string * A)) : option A :=
  match d with
  | [] => None
  | (k', v) :: d' => if String.eqb k k' then Some v else assoc k d'
  end.

(** [bool(v)] *)
Definition truthy (v : value) : bool :=
  match v with
  | VNone => false
  | VBool b => b
  | VInt n => negb (n =? 0)%Z
  | VStr s => negb (String.eqb s "")
  | VList l => match l with [] => false | _ => true end
  | VDict d => match d with [] => false | _ => true end
  end.

(** [a == b]; [bool] is a subclass of [int], dicts compare as mappings. *)
Fixpoint py_eq (a b : value) {struct a} : bool :=
  match a, b with
  | VNone, VNone => true
  | VBool x, VBool y => Bool.eqb x y
  | VBool x, VInt y => (Z.b2z x =? y)%Z
  | VInt x, VBool y => (x =? Z.b2z y)%Z
  | VInt x, VInt y => (x =? y)%Z
  | VStr x, VStr y => String.eqb x y
  | VList x, VList y =>
      (fix all2 (x y : list value) : bool :=
         match x, y with
         | [], [] => true
         | a' :: x', b' :: y' => py_eq a' b' && all2 x' y'
         | _, _ => false
         end) x y
  | VDict x, VDict y =>
      Nat.eqb (length x) (length y) &&
      (fix all_in (x : list (string * value)) : bool :=
         match x with
         | [] => true
         | (k, v) :: x' =>
             match assoc k y with
             | Some v' => py_eq v v'
             | None => false
             end && all_in x'
         end) x
  | _, _ => false
  end.

(** [l[i]] on a sequence of length [length l]: negative indices count from
    the end, an index out of range raises [IndexError]. *)
Definition seq_index {A} (l : list A) (i : Z) : res A :=
  let n := Z.of_nat (length l) in
  let j := (if i <? 0 then i + n else i)%Z in
  if ((0 <=? j) && (j <? n))%Z then
    match nth_error l (Z.to_nat j) with
    | Some a => Ok a
    | None => Raise IndexError
    end
  else Raise IndexError.

(** [obj[key]] *)
Definition getitem (obj key : value) : res value :=
  match obj with
  | VDict d =>
      match key with
      | VStr k => match assoc k d with
                  | Some v => Ok v
                  | None => Raise KeyError
                  end
      | VList _ | VDict _ => Raise TypeError
      | _ => Raise KeyError
      end
  | VList l =>
      match key with
      | VInt i => seq_index l i
      | VBool b => seq_index l (Z.b2z b)
      | _ => Raise TypeError
      end
  | VStr s =>
      match key with
      | VInt i => c <- seq_index (chars s) i ;; Ok (VStr c)
      | VBool b => c <- seq_index (chars s) (Z.b2z b) ;; Ok (VStr c)
      | _ => Raise TypeError
      end
  | _ => Raise TypeError
  end.

(** [key in obj] *)
Definition contains (key obj : value) : res bool :=
  match obj with
  | VDict d =>
      match key with
      | VStr k => Ok (match assoc k d with Some _ => true | None => false end)
      | VList _ | VDict _ => Raise TypeError
      | _ => Ok false
      end
  | VList l => Ok (existsb (fun x => py_eq x key) l)
  | VStr s =>
      match key with
      | VStr k => Ok (str_contains k s)
      | _ => Raise TypeError
      end
  | _ => Raise TypeError
  end.

(** The elements a [for] loop over [obj] visits. *)
Definition iterate (obj : value) : res (list value) :=
  match obj with
  | VList l => Ok l
  | VDict d => Ok (map (fun kv => VStr (fst kv)) d)
  | VStr s => Ok (map VStr (chars s))
  | _ => Raise TypeError
  end.

(** [v.endswith(suffix)]: only [str] has the method. *)
Definition endswith (v : value) (suffix : string) : res bool :=
  match v with
  | VStr s => Ok (str_endswith s suffix)
  | _ => Raise AttributeError
  end.

(** [v.replace(old, new)]: only [str] has the method. *)
Definition replace (v : value) (old : ascii) (new : string) : res string :=
  match v with
  | VStr s => Ok (str_replace old new s)
  | _ => Raise AttributeError
  end.

(** ** Dates *)

(** A [datetime]: its fields and the UTC offset of its [tzinfo] in
    microseconds ([None] for a naive datetime). *)
Record datetime : Type := Datetime {
  year : Z; month : Z; day : Z;
  hour : Z; minute : Z; second : Z; microsecond : Z;
  tzinfo : option Z
}.

Definition fields (d : datetime) : list Z :=
  [year d; month d; day d; hour d; minute d; second d; microsecond d].

Fixpoint lex_compare (a b : list Z) : comparison :=
  match a, b with
  | [], [] => Eq
  | [], _ :: _ => Lt
  | _ :: _, [] => Gt
  | x :: a', y :: b' =>
      match x ?= y with
      | Eq => lex_compare a' b'
      | c => c
      end
  end.

(** [a >= b] for two datetimes that carry the same [tzinfo] object: Python
    compares them field by field, without looking at the offset. *)
Definition datetime_ge (a b : datetime) : bool :=
  match lex_compare (fields a) (fields b) with
  | Lt => false
  | _ => true
  end.

(** [datetime(2025, 7, 1, tzinfo=tz)] *)
Definition cutoff_date (tz : option Z) : datetime :=
  Datetime 2025 7 1 0 0 0 0 tz.

(** ** The feed document *)

(** An [xml.etree.ElementTree.Element]: tag, text ([None] when the element
    has no text) and children. *)
Inductive element : Type :=
| Element (tag : string) (text : option string) (children : list element).

Definition tag_of (e : element) : string :=
  match e with Element t _ _ => t end.
Definition text_of (e : element) : option string :=
  match e with Element _ t _ => t end.
Definition children_of (e : element) : list element :=
  match e with Element _ _ c => c end.

(** [e.iter()]: the element and its descendants in document order. *)
Fixpoint iter (e : element) : list element :=
  match e with
  | Element _ _ c =>
      e :: (fix iter_all (l : list element) : list element :=
              match l with
              | [] => []
              | x :: l' => iter x ++ iter_all l'
              end) c
  end.

(** [root.findall('.//' + tag)]: the proper descendants of [root] with that
    tag, in document order. *)
Definition findall_descendants (tag : string) (root : element) : list element :=
  filter (fun e => String.eqb (tag_of e) tag = true) (tail (iter root)).

(** [e.find(tag)]: the first child with that tag. *)
Definition find_child (tag : string) (e : element) : option element :=
  List.find (fun c => String.eqb (tag_of c) tag) (children_of e).

(** [c.isspace()] for a code point below 256. *)
Definition is_space (a : ascii) : bool :=
  let n := nat_of_ascii a in
  ((9 <=? n) && (n <=? 13) || (28 <=? n) && (n <=? 32) ||
   (n =? 133) || (n =? 160))%nat.

(** [s.split()]: the maximal runs of non-whitespace characters.  [cur] is
    the run being read, reversed. *)
Fixpoint split_from (cur s : string) : list string :=
  match s with
  | EmptyString => if String.eqb cur "" then [] else [str_rev cur]
  | String a s' =>
      if is_space a then
        if String.eqb cur "" then split_from "" s'
        else str_rev cur :: split_from "" s'
      else split_from (String a cur) s'
  end.

Definition str_split (s : string) : list string := split_from "" s.

(** ** The world: disk, network, clock and log *)

Inductive node : Type :=
| File (content : string)
| Dir.

(** One constructor per logger call of the source, with the values the
    message interpolates. *)
Inductive log_msg : Type :=
| MsgInfoFailed (package_name : string) (e : exn)
| MsgParseTimeFailed (e : exn)
| MsgExists (filename : string)
| MsgDownloading (filename : string)
| MsgDownloaded (filename : string)
| MsgNoFile (package_name : string)
| MsgDownloadFailed (package_name : string) (e : exn)
| MsgRssCount (n : nat)
| MsgRssFailed (e : exn)
| MsgNoList
| MsgStart (n : nat)
| MsgProgress (i n : nat) (package_name : string)
| MsgTooOld (package_name : string)
| MsgSummary (downloaded_count : nat).

Inductive event : Type :=
| EGet (url : string) (timeout : Z)
| ESleep (seconds : Z)
| ELog (m : log_msg).

(** The files and directories by path, and everything done so far. *)
Record world : Type := World {
  fs : gmap string node;
  trace : list event
}.

Definition add_event (ev : event) (w : world) : world :=
  World (fs w) (trace w ++ [ev]).

Definition put_file (path : string) (n : node) (w : world) : world :=
  World (<[path := n]> (fs w)) (trace w).

Record response : Type := Response {
  status_code : Z;
  content : string
}.

(** What [open(path, 'wb')] followed by [f.write(data)] does: the open fails
    and the disk is untouched, the write fails after some bytes, or all of
    [data] is written. *)
Inductive write_outcome : Type :=
| OpenFails
| WriteFails (written : string)
| WriteDone.

(** The collaborators the code calls.  [server] answers a GET given the
    whole world so far ([None]: [Session.get] raises a [RequestException]);
    [disk] decides a write; the three parsers are those of [json], of
    [xml.etree.ElementTree] and of [datetime] ([None]: the parser raises).
    [json_failure] is the exception [Response.json] raises for a text that
    [json_loads] does not read: [JSONDecodeError] for a text that is not
    JSON, which requests raises as its own subclass of [RequestException];
    [ValueError] for an integer literal longer than the interpreter's digit
    limit and [RecursionError] for arrays or objects nested deeper than its
    recursion limit, which requests lets through as they are. *)
Record env : Type := Env {
  server : world -> string -> Z -> option response;
  disk : world -> string -> string -> write_outcome;
  json_loads : string -> option value;
  json_failure : string -> exn;
  ET_fromstring : string -> option element;
  fromisoformat : string -> option datetime
}.

(** A command runs in a world and leaves a world, with a result or an
    exception; the effects made before an exception stay. *)
Definition M (A : Type) : Type := world -> world * res A.

Definition ret {A} (a : A) : M A := fun w => (w, Ok a).
Definition raise {A} (e : exn) : M A := fun w => (w, Raise e).
Definition lift {A} (r : res A) : M A := fun w => (w, r).

Definition bind {A B} (c : M A) (k : A -> M B) : M B :=
  fun w =>
    match c w with
    | (w', Ok a) => k a w'
    | (w', Raise e) => (w', Raise e)
    end.

Notation "x <== c ;; k" := (bind c (fun x => k))
  (at level 100, c at next level, right associativity).

(** [try: c  except <classes> as e: handler e] *)
Definition try_except {A} (c : M A) (caught : exn -> bool)
    (handler : exn -> M A) : M A :=
  fun w =>
    match c w with
    | (w', Ok a) => (w', Ok a)
    | (w', Raise e) => if caught e then handler e w' else (w', Raise e)
    end.

Definition emit (ev : event) : M unit := fun w => (add_event ev w, Ok tt).
Definition log (m : log_msg) : M unit := emit (ELog m).
Definition sleep (seconds : Z) : M unit := emit (ESleep seconds).

(** [os.path.exists(path)] *)
Definition path_exists (path : string) : M bool :=
  fun w => (w, Ok (match fs w !! path with Some _ => true | None => false end)).

(** [os.path.join(a, b)] (posixpath) *)
Definition os_path_join (a b : string) : string :=
  if str_startswith "/" b then b
  else if String.eqb a "" || str_endswith a "/" then a +:+ b
  else a +:+ "/" +:+ b.

(** The statuses for which [raise_for_status] raises: 4xx and 5xx. *)
Definition error_status (r : response) : bool :=
  (400 <=? status_code r) && (status_code r <? 600).

(** [response.raise_for_status()] *)
Definition raise_for_status (r : response) : M unit :=
  if error_status r then raise HTTPError else ret tt.

(** ** The crawler *)

Record PyPICrawler : Type := { download_dir : string }.

Section Crawler.

Variable E : env.
Variable self : PyPICrawler.

(** [self.session.get(url, timeout=timeout)] *)
Definition session_get (url : string) (timeout : Z) : M response :=
  fun w =>
    match server E w url timeout with
    | Some r => (add_event (EGet url timeout) w, Ok r)
    | None => (add_event (EGet url timeout) w, Raise RequestException)
    end.

(** [response.json()] *)
Definition response_json (r : response) : M value :=
  match json_loads E (content r) with
  | Some v => ret v
  | None => raise (json_failure E (content r))
  end.

(** [with open(path, 'wb') as f: f.write(data)] *)
Definition write_file (path data : string) : M unit :=
  fun w =>
    match disk E w path data with
    | OpenFails => (w, Raise OSError)
    | WriteFails written => (put_file path (File written) w, Raise OSError)
    | WriteDone => (put_file path (File data) w, Ok tt)
    end.

Definition get_package_info (package_name : string) : M value :=
  let url := "https://pypi.org/pypi/" +:+ package_name +:+ "/json" in
  try_except
    (response <== session_get url 10 ;;
     _ <== raise_for_status response ;;
     response_json response)
    is_RequestException
    (fun e => _ <== log (MsgInfoFailed package_name e) ;; ret VNone).

(** Lines 39-46: the lookups of the [try] of [is_updated_since_july_2025].
    [Some upload_time] when they reach the first file of the current
    version, [None] when one of the two [if]s fails and control falls
    through to the final [return False]. *)
Definition first_upload_time (package_info : value) : res (option value) :=
  info <- getitem package_info (VStr "info") ;;
  latest_version <- getitem info (VStr "version") ;;
  releases <- getitem package_info (VStr "releases") ;;
  present <- contains latest_version releases ;;
  if present then
    release_files <- getitem releases latest_version ;;
    if truthy release_files then
      first <- getitem release_files (VInt 0) ;;
      upload_time <- getitem first (VStr "upload_time_iso_8601") ;;
      Ok (Some upload_time)
    else Ok None
  else Ok None.

(** Lines 47-49: [upload_date >= cutoff_date] for
    [upload_date = datetime.fromisoformat(upload_time.replace('Z', '+00:00'))]
    and [cutoff_date = datetime(2025, 7, 1, tzinfo=upload_date.tzinfo)]. *)
Definition on_or_after_cutoff (upload_time : value) : res bool :=
  normalized <- replace upload_time "Z" "+00:00" ;;
  match fromisoformat E normalized with
  | Some upload_date =>
      Ok (datetime_ge upload_date (cutoff_date (tzinfo upload_date)))
  | None => Raise ValueError
  end.

(** The body of the [try]: [Some b] when it returns [b]. *)
Definition upload_check (package_info : value) : res (option bool) :=
  found <- first_upload_time package_info ;;
  match found with
  | Some upload_time =>
      recent <- on_or_after_cutoff upload_time ;;
      Ok (Some recent)
  | None => Ok None
  end.

Definition is_updated_since_july_2025 (package_info : value) : M bool :=
  answer <== try_except
               (lift (upload_check package_info))
               is_lookup_or_parse_error
               (fun e => _ <== log (MsgParseTimeFailed e) ;; ret None) ;;
  match answer with
  | Some b => ret b
  | None => ret false
  end.

(** [for file_info in releases: if file_info['filename'].endswith(suffix):
    tar_gz_file = file_info; break] started with [tar_gz_file = None]: the
    value of [tar_gz_file] after the loop. *)
Fixpoint first_with_suffix (suffix : string) (releases : list value)
    : res value :=
  match releases with
  | [] => Ok VNone
  | file_info :: rest =>
      filename <- getitem file_info (VStr "filename") ;;
      matches <- endswith filename suffix ;;
      if matches then Ok file_info else first_with_suffix suffix rest
  end.

(** The two loops of [download_package] over the files of the current
    version: the value of [tar_gz_file] at [if tar_gz_file:]. *)
Definition select_file (files : list value) : res value :=
  found <- first_with_suffix ".tar.gz" files ;;
  if negb (truthy found) then first_with_suffix ".whl" files
  else Ok found.

(** Lines 57-58 and the start of the [for]: the elements of
    [package_info['releases'][latest_version]]. *)
Definition current_files (package_info : value) : res (list value) :=
  info <- getitem package_info (VStr "info") ;;
  latest_version <- getitem info (VStr "version") ;;
  all_releases <- getitem package_info (VStr "releases") ;;
  releases <- getitem all_releases latest_version ;;
  iterate releases.

Definition tar_gz_file (package_info : value) : res value :=
  files <- current_files package_info ;;
  select_file files.

(** [self.session.get(download_url, timeout=30)] for a URL taken from the
    metadata: requests turns a URL that is not a string into a string that
    has no scheme and raises before anything is sent. *)
Definition fetch_artifact (download_url : value) : M response :=
  match download_url with
  | VStr url => session_get url 30
  | _ => raise RequestException
  end.

Definition download_package (package_name : string) (package_info : value)
    : M bool :=
  try_except
    (selected <== lift (tar_gz_file package_info) ;;
     if truthy selected then
       download_url <== lift (getitem selected (VStr "url")) ;;
       filename <== lift (getitem selected (VStr "filename")) ;;
       match filename with
       | VStr filename =>
           let file_path := os_path_join (download_dir self) filename in
           present <== path_exists file_path ;;
           if present then
             _ <== log (MsgExists filename) ;;
             ret true
           else
             _ <== log (MsgDownloading filename) ;;
             response <== fetch_artifact download_url ;;
             _ <== raise_for_status response ;;
             _ <== write_file file_path (content response) ;;
             _ <== log (MsgDownloaded filename) ;;
             ret true
       | _ => raise TypeError
       end
     else
       _ <== log (MsgNoFile package_name) ;;
       ret false)
    (fun _ => true)
    (fun e => _ <== log (MsgDownloadFailed package_name e) ;; ret false).

(** [title.text.split()[0]] *)
Definition first_token (text : option string) : res string :=
  match text with
  | Some s => seq_index (str_split s) 0
  | None => Raise AttributeError
  end.

(** The loop over the feed items, [packages] being the list built so far. *)
Fixpoint collect_names (items : list element) (packages : list string)
    : res (list string) :=
  match items with
  | [] => Ok packages
  | item :: rest =>
      match find_child "title" item with
      | Some title =>
          package_name <- first_token (text_of title) ;;
          if existsb (String.eqb package_name) packages
          then collect_names rest packages
          else collect_names rest (packages ++ [package_name])
      | None => collect_names rest packages
      end
  end.

Definition parse_feed (data : string) : M element :=
  match ET_fromstring E data with
  | Some root => ret root
  | None => raise ParseError
  end.

Definition get_recent_packages_from_rss : M (list string) :=
  try_except
    (response <== session_get "https://pypi.org/rss/updates.xml" 10 ;;
     _ <== raise_for_status response ;;
     root <== parse_feed (content response) ;;
     packages <== lift (collect_names (findall_descendants "item" root) []) ;;
     _ <== log (MsgRssCount (length packages)) ;;
     ret (take 100 packages))
    (fun _ => true)
    (fun e => _ <== log (MsgRssFailed e) ;; ret []).

(** One iteration of the loop of [crawl_and_download]; the result is the new
    value of [downloaded_count].  The two [continue]s leave the iteration
    before [time.sleep(1)]. *)
Definition crawl_step (total i : nat) (package_name : string)
    (downloaded_count : nat) : M nat :=
  _ <== log (MsgProgress i total package_name) ;;
  package_info <== get_package_info package_name ;;
  if negb (truthy package_info) then ret downloaded_count
  else
    recent <== is_updated_since_july_2025 package_info ;;
    if negb recent then
      _ <== log (MsgTooOld package_name) ;;
      ret downloaded_count
    else
      downloaded <== download_package package_name package_info ;;
      _ <== sleep 1 ;;
      ret (if downloaded then S downloaded_count else downloaded_count).

(** [for i, package_name in enumerate(package_list, 1): ...] *)
Fixpoint crawl_loop (total i : nat) (package_list : list string)
    (downloaded_count : nat) : M nat :=
  match package_list with
  | [] => ret downloaded_count
  | package_name :: rest =>
      downloaded_count <== crawl_step total i package_name downloaded_count ;;
      crawl_loop total (S i) rest downloaded_count
  end.

Definition crawl_and_download (package_list : option (list string)) : M unit :=
  package_list <== match package_list with
                   | None => get_recent_packages_from_rss
                   | Some l => ret l
                   end ;;
  match package_list with
  | [] => log MsgNoList
  | _ :: _ =>
      _ <== log (MsgStart (length package_list)) ;;
      downloaded_count <== crawl_loop (length package_list) 1 package_list 0 ;;
      log (MsgSummary downloaded_count)
  end.

End Crawler.

(** ** A reference parser for the examples

    [iso_parse] reads the format [datetime.isoformat] writes,
    [YYYY-MM-DD[*HH[:MM[:SS[.fff[fff]]]][+HH:MM[:SS[.ffffff]]]]], and checks
    the ranges the [datetime] constructor checks.  It instantiates
    [fromisoformat] in the examples; the theorems hold for every parser. *)

Definition digit (a : ascii) : option Z :=
  let n := Z.of_nat (nat_of_ascii a) in
  if (48 <=? n) && (n <=? 57) then Some (n - 48) else None.

(** [n] digits, then the rest of the string. *)
Fixpoint number (n : nat) (acc : Z) (s : string) : option (Z * string) :=
  match n with
  | O => Some (acc, s)
  | S n' =>
      match s with
      | String a s' =>
          match digit a with
          | Some d => number n' (10 * acc + d) s'
          | None => None
          end
      | EmptyString => None
      end
  end.

Definition expect (a : ascii) (s : string) : option string :=
  match s with
  | String b s' => if Ascii.eqb a b then Some s' else None
  | EmptyString => None
  end.

Definition fraction (s : string) : option Z :=
  match String.length s with
  | 3%nat => '(f, _) ← number 3 0 s; Some (f * 1000)
  | 6%nat => '(f, _) ← number 6 0 s; Some f
  | _ => None
  end.

(** [HH[:MM[:SS[.fff[fff]]]]], the whole string. *)
Definition hh_mm_ss_ff (s : string) : option (Z * Z * Z * Z) :=
  '(h, s) ← number 2 0 s;
  if String.eqb s "" then Some (h, 0, 0, 0) else
  s ← expect ":" s;
  '(m, s) ← number 2 0 s;
  if String.eqb s "" then Some (h, m, 0, 0) else
  s ← expect ":" s;
  '(sec, s) ← number 2 0 s;
  if String.eqb s "" then Some (h, m, sec, 0) else
  s ← expect "." s;
  f ← fraction s;
  Some (h, m, sec, f).

(** The text before the first [a] and the text after it. *)
Fixpoint split_at (a : ascii) (s : string) : option (string * string) :=
  match s with
  | EmptyString => None
  | String b s' =>
      if Ascii.eqb a b then Some (EmptyString, s')
      else '(l, r) ← split_at a s'; Some (String b l, r)
  end.

Definition utc_offset (sign : Z) (s : string) : option Z :=
  '(h, m, sec, f) ← hh_mm_ss_ff s;
  let off := sign * (((h * 60 + m) * 60 + sec) * 1000000 + f) in
  if (String.length s =? 5)%nat || (String.length s =? 8)%nat
     || (String.length s =? 15)%nat
  then if (-86400000000 <? off) && (off <? 86400000000) then Some off else None
  else None.

Definition days_in_month (y m : Z) : Z :=
  if m =? 2 then
    if ((y mod 4 =? 0) && negb (y mod 100 =? 0)) || (y mod 400 =? 0)
    then 29 else 28
  else if (m =? 4) || (m =? 6) || (m =? 9) || (m =? 11) then 30 else 31.

Definition valid_fields (y mo d h mi s us : Z) : bool :=
  (1 <=? y) && (y <=? 9999) && (1 <=? mo) && (mo <=? 12) &&
  (1 <=? d) && (d <=? days_in_month y mo) &&
  (0 <=? h) && (h <=? 23) && (0 <=? mi) && (mi <=? 59) &&
  (0 <=? s) && (s <=? 59) && (0 <=? us) && (us <=? 999999).

Definition iso_parse (s : string) : option datetime :=
  '(y, s) ← number 4 0 s;
  s ← expect "-" s;
  '(mo, s) ← number 2 0 s;
  s ← expect "-" s;
  '(d, s) ← number 2 0 s;
  '(h, mi, sec, us, tz) ←
    match s with
    | EmptyString => Some (0, 0, 0, 0, None)
    | String _ t =>
        match split_at "-" t, split_at "+" t with
        | Some (l, r), _ =>
            '(h, mi, sec, us) ← hh_mm_ss_ff l;
            off ← utc_offset (-1) r;
            Some (h, mi, sec, us, Some off)
        | None, Some (l, r) =>
            '(h, mi, sec, us) ← hh_mm_ss_ff l;
            off ← utc_offset 1 r;
            Some (h, mi, sec, us, Some off)
        | None, None =>
            '(h, mi, sec, us) ← hh_mm_ss_ff t;
            Some (h, mi, sec, us, None)
        end
    end;
  if valid_fields y mo d h mi sec us
  then Some (Datetime y mo d h mi sec us tz) else None.

(** ** Notions used to state the properties *)

(** *** Observations on a trace *)

(** The package names of the progress messages, one per loop iteration. *)
Fixpoint processed (tr : list event) : list string :=
  match tr with
  | [] => []
  | ELog (MsgProgress _ _ package_name) :: tr' => package_name :: processed tr'
  | _ :: tr' => processed tr'
  end.

(** The durations of the calls of [time.sleep]. *)
Fixpoint pauses (tr : list event) : list Z :=
  match tr with
  | [] => []
  | ESleep seconds :: tr' => seconds :: pauses tr'
  | _ :: tr' => pauses tr'
  end.

(** The URLs requested with the given timeout. *)
Fixpoint requests (timeout : Z) (tr : list event) : list string :=
  match tr with
  | [] => []
  | EGet url t :: tr' =>
      if t =? timeout then url :: requests timeout tr' else requests timeout tr'
  | _ :: tr' => requests timeout tr'
  end.

Definition is_get (ev : event) : bool :=
  match ev with EGet _ _ => true | _ => false end.

Definition is_progress (ev : event) : bool :=
  match ev with ELog (MsgProgress _ _ _) => true | _ => false end.

(** Every candidate but the last is followed by a pause of one second
    before the next one starts: each progress message after the first comes
    right after [ESleep 1]. *)
Fixpoint paced (prev : option event) (tr : list event) : bool :=
  match tr with
  | [] => true
  | ev :: tr' =>
      (if is_progress ev then
         match prev with
         | None | Some (ELog (MsgStart _)) | Some (ESleep 1) => true
         | _ => false
         end
       else true) && paced (Some ev) tr'
  end.

Definition metadata_url (package_name : string) : string :=
  "https://pypi.org/pypi/" +:+ package_name +:+ "/json".

(** Events that are neither a pause, nor a progress message, nor a request
    with the timeout of the metadata requests. *)
Definition quiet (ev : event) : bool :=
  match ev with
  | ESleep _ => false
  | ELog (MsgProgress _ _ _) => false
  | EGet _ t => negb (t =? 10)
  | _ => true
  end.

(** [c] only adds events that satisfy [P]. *)
Definition only (P : event -> bool) {A} (c : M A) : Prop :=
  forall w w' r, c w = (w', r) ->
    exists evs, trace w' = trace w ++ evs /\ forallb P evs = true.

(** The exceptions the lookups and the parse of the recency filter raise. *)
Definition lookup_or_parse_failure (e : exn) : bool :=
  match e with
  | KeyError | ValueError | IndexError | TypeError | AttributeError => true
  | _ => false
  end.

(** [x] raises nothing but exceptions of the classes [allowed]. *)
Definition raises_only {A} (allowed : exn -> bool) (x : res A) : Prop :=
  match x with
  | Ok _ => True
  | Raise e => allowed e = true
  end.

(** *** The metadata document of the data model *)

Definition is_str (v : value) : bool :=
  match v with VStr _ => true | _ => false end.

(** [v] is a dict and its field [k], when it has one, satisfies [p]. *)
Definition field_ok (k : string) (p : value -> bool) (v : value) : bool :=
  match v with
  | VDict d => match assoc k d with Some x => p x | None => true end
  | _ => false
  end.

(** A file record: [filename], [url] and [upload_time_iso_8601] are strings
    where present. *)
Definition is_file_record (v : value) : bool :=
  field_ok "filename" is_str v && field_ok "url" is_str v
  && field_ok "upload_time_iso_8601" is_str v.

Definition is_file_list (v : value) : bool :=
  match v with VList l => forallb is_file_record l | _ => false end.

Definition is_releases (v : value) : bool :=
  match v with
  | VDict d => forallb (fun kv => is_file_list (snd kv)) d
  | _ => false
  end.

(** A package metadata document with the types of the data model: the
    version is a string, the releases map versions to lists of file records;
    any of the attributes may be missing. *)
Definition is_metadata (v : value) : bool :=
  field_ok "info" (field_ok "version" is_str) v
  && field_ok "releases" is_releases v.

(** [v[k]] when [v] is a dict with the key [k]. *)
Definition field (k : string) (v : value) : option value :=
  match v with VDict d => assoc k d | _ => None end.

(** The record carries a filename that is a string. *)
Definition has_filename (v : value) : bool :=
  match field "filename" v with Some (VStr _) => true | _ => false end.

Definition filename_ends (suffix : string) (file_info : value) : bool :=
  match field "filename" file_info with
  | Some (VStr f) => str_endswith f suffix
  | _ => false
  end.

(** The selection policy in the words of the specification: the first
    record whose filename ends in [.tar.gz], else the first whose filename
    ends in [.whl]. *)
Definition preferred_file (files : list value) : option value :=
  match List.find (filename_ends ".tar.gz") files with
  | Some r => Some r
  | None => List.find (filename_ends ".whl") files
  end.

(** *** The candidate list in the words of the specification *)

(** Keep the first occurrence of every name. *)
Fixpoint dedup_keep_first (l : list string) : list string :=
  match l with
  | [] => []
  | x :: l' =>
      x :: List.filter (fun y => negb (String.eqb y x)) (dedup_keep_first l')
  end.

(** [packages.append(package_name)] unless the name is already there. *)
Definition add_name (packages : list string) (package_name : string)
    : list string :=
  if existsb (String.eqb package_name) packages then packages
  else packages ++ [package_name].

(** The title texts of the items that have a title. *)
Definition titles_of (items : list element) : list (option string) :=
  omap (fun item => text_of <$> find_child "title" item) items.

(** The titles the loop over the feed reads, in document order. *)
Definition item_titles (root : element) : list (option string) :=
  titles_of (findall_descendants "item" root).

Definition no_tokens (text : option string) : bool :=
  match text with
  | Some s => match str_split s with [] => true | _ => false end
  | None => true
  end.

Definition first_word (text : option string) : string :=
  match text with
  | Some s => match str_split s with t :: _ => t | [] => "" end
  | None => ""
  end.

(** First token of each title, first occurrences only, at most 100; nothing
    when some title has no token. *)
Definition candidates_of_feed (root : element) : list string :=
  if existsb no_tokens (item_titles root) then []
  else take 100 (dedup_keep_first (map first_word (item_titles root))).

Section Outcomes.

Variable E : env.
Variable self : PyPICrawler.

(** *** What the recency filter is specified to compute *)
Definition recent_by_spec (package_info : value) : bool :=
  match info ← field "info" package_info; field "version" info,
        field "releases" package_info with
  | Some (VStr version), Some releases =>
      match field version releases with
      | Some (VList (first :: _)) =>
          match field "upload_time_iso_8601" first with
          | Some (VStr upload_time) =>
              match fromisoformat E (str_replace "Z" "+00:00" upload_time) with
              | Some instant =>
                  datetime_ge instant (cutoff_date (tzinfo instant))
              | None => false
              end
          | _ => false
          end
      | _ => false
      end
  | _, _ => false
  end.

(** *** The outcome of one candidate *)
Inductive outcome : Type :=
| MetadataAbsent
| FilterRejected
| DownloadSucceeded
| DownloadFailed
| Aborted (e : exn).

(** The outcome of the candidate [package_name] when its iteration has
    logged its progress message and is in world [w]. *)
Definition outcome_of (package_name : string) (w : world) : outcome :=
  match get_package_info E package_name w with
  | (w1, Ok package_info) =>
      if negb (truthy package_info) then MetadataAbsent
      else
        match is_updated_since_july_2025 E package_info w1 with
        | (w2, Ok recent) =>
            if negb recent then FilterRejected
            else
              match download_package E self package_name package_info w2 with
              | (_, Ok true) => DownloadSucceeded
              | (_, Ok false) => DownloadFailed
              | (_, Raise e) => Aborted e
              end
        | (_, Raise e) => Aborted e
        end
  | (_, Raise e) => Aborted e
  end.

Definition download_attempted (o : outcome) : bool :=
  match o with
  | DownloadSucceeded | DownloadFailed => true
  | _ => false
  end.

(** *** Failure of a download before the file is written *)

(** The retrieval of [download_url] in world [w] fails: the URL is not a
    string, [Session.get] raises, or the answer has a 4xx or 5xx status. *)
Definition retrieval_fails (download_url : value) (w : world) : bool :=
  match download_url with
  | VStr url =>
      match server E w url 30 with
      | Some r => error_status r
      | None => true
      end
  | _ => true
  end.

(** The error paths of [download_package] that end before the write. *)
Inductive fails_before_write (package_info : value) (w : world) : Prop :=
| lookup_fails e :
    tar_gz_file package_info = Raise e ->
    fails_before_write package_info w
| nothing_selected selected :
    tar_gz_file package_info = Ok selected ->
    truthy selected = false ->
    fails_before_write package_info w
| url_missing selected e :
    tar_gz_file package_info = Ok selected ->
    truthy selected = true ->
    getitem selected (VStr "url") = Raise e ->
    fails_before_write package_info w
| retrieval_failed selected download_url filename :
    tar_gz_file package_info = Ok selected ->
    getitem selected (VStr "url") = Ok download_url ->
    getitem selected (VStr "filename") = Ok (VStr filename) ->
    fs w !! os_path_join (download_dir self) filename = None ->
    retrieval_fails download_url
      (add_event (ELog (MsgDownloading filename)) w) = true ->
    fails_before_write package_info w.

(** *** The downloader after the selection *)

(** What [download_package] does once a record is selected and its [url]
    and [filename] are read. *)
Definition download_selected (package_name : string) (download_url : value)
    (filename : string) (w : world) : world * res bool :=
  let file_path := os_path_join (download_dir self) filename in
  let failed e w := (add_event (ELog (MsgDownloadFailed package_name e)) w, Ok false) in
  match fs w !! file_path with
  | Some _ => (add_event (ELog (MsgExists filename)) w, Ok true)
  | None =>
      match fetch_artifact E download_url
              (add_event (ELog (MsgDownloading filename)) w) with
      | (w2, Ok r) =>
          if error_status r then failed HTTPError w2
          else
            match disk E w2 file_path (content r) with
            | OpenFails => failed OSError w2
            | WriteFails written =>
                failed OSError (put_file file_path (File written) w2)
            | WriteDone =>
                (add_event (ELog (MsgDownloaded filename))
                   (put_file file_path (File (content r)) w2), Ok true)
            end
      | (w2, Raise e) => failed e w2
      end
  end.

(** [Response.json] raises [e] past the handler of [get_package_info], in
    answer to the metadata request for [package_name] sent in world [w]. *)
Definition parser_escapes (package_name : string) (w : world) (e : exn)
    : Prop :=
  exists r,
    server E w (metadata_url package_name) 10 = Some r
    /\ error_status r = false
    /\ json_loads E (content r) = None
    /\ json_failure E (content r) = e
    /\ is_RequestException e = false.

(** The exceptions that end a run: the two the recency filter lets through
    and those [Response.json] raises past the handler of the metadata
    fetch. *)
Definition ends_run (e : exn) : Prop :=
  e = TypeError \/ e = AttributeError
  \/ exists package_name w, parser_escapes package_name w e.

(** The bodies the server sends in answer to the metadata requests are
    metadata with the types of the data model, or are not JSON. *)
Definition typed_metadata_only : Prop :=
  forall w package_name r,
    server E w (metadata_url package_name) 10 = Some r ->
    error_status r = false ->
    match json_loads E (content r) with
    | Some v => is_metadata v = true
    | None => json_failure E (content r) = JSONDecodeError
    end.

(** *** The candidates of a run *)

(** The list the loop of [crawl_and_download] runs over: the one supplied,
    or else the one the feed gives in world [w]. *)
Definition candidate_list (package_list : option (list string)) (w : world)
    : list string :=
  match package_list with
  | Some l => l
  | None =>
      match snd (get_recent_packages_from_rss E w) with
      | Ok l => l
      | Raise _ => []
      end
  end.

End Outcomes.

(** ** Example documents and environments *)

Module Demo.

Definition file_record (filename url upload_time : string) : value :=
  VDict [("filename", VStr filename); ("url", VStr url);
         ("upload_time_iso_8601", VStr upload_time)].

Definition metadata (version : string) (files : list value) : value :=
  VDict [("info", VDict [("version", VStr version)]);
         ("releases", VDict [(version, VList files)])].

(** Package [demo], version 2.0, uploaded on 2025-07-15. *)
Definition demo_info : value :=
  metadata "2.0"
    [file_record "demo-2.0.tar.gz" "https://files.example/demo-2.0.tar.gz"
       "2025-07-15T00:00:00Z"].

Definition demo_info_offset : value :=
  metadata "2.0"
    [file_record "demo-2.0.tar.gz" "https://files.example/demo-2.0.tar.gz"
       "2025-07-15T00:00:00+00:00"].

(** Package [old], version 1.0, uploaded on 2024-01-01. *)
Definition old_info : value :=
  metadata "1.0"
    [file_record "old-1.0.tar.gz" "https://files.example/old-1.0.tar.gz"
       "2024-01-01T00:00:00Z"].

(** A document whose first file has [null] for its upload time. *)
Definition null_timestamp_info : value :=
  VDict [("info", VDict [("version", VStr "1.0")]);
         ("releases",
          VDict [("1.0", VList [VDict [("filename", VStr "p-1.0.tar.gz");
                                       ("url", VStr "https://files.example/p-1.0.tar.gz");
                                       ("upload_time_iso_8601", VNone)]])])].

(** The bodies the example server sends stand for the documents below. *)
Definition loads (body : string) : option value :=
  if String.eqb body "demo metadata" then Some demo_info
  else if String.eqb body "old metadata" then Some old_info
  else if String.eqb body "null timestamp metadata" then Some null_timestamp_info
  else None.

Definition answers (url : string) : option response :=
  if String.eqb url "https://pypi.org/pypi/demo/json"
  then Some (Response 200 "demo metadata")
  else if String.eqb url "https://pypi.org/pypi/old/json"
  then Some (Response 200 "old metadata")
  else if String.eqb url "https://pypi.org/pypi/p/json"
  then Some (Response 200 "null timestamp metadata")
  else if String.eqb url "https://files.example/demo-2.0.tar.gz"
  then Some (Response 200 "demo sources")
  else if String.eqb url "https://pypi.org/rss/updates.xml"
  then Some (Response 200 "feed")
  else Some (Response 404 "").

Definition feed : element :=
  Element "rss" None
    [Element "channel" None
       [Element "title" (Some "PyPI recent updates") [];
        Element "item" None [Element "title" (Some "foo 1.2.3") []];
        Element "item" None [Element "title" (Some "bar 0.1") []];
        Element "item" None [Element "title" (Some "foo 1.3.0") []]]].

(** A feed whose second item has an empty title. *)
Definition feed_with_empty_title : element :=
  Element "rss" None
    [Element "channel" None
       [Element "item" None [Element "title" (Some "foo 1.2.3") []];
        Element "item" None [Element "title" None []];
        Element "item" None [Element "title" (Some "bar 0.1") []]]].

Definition parse_xml (body : string) : option element :=
  if String.eqb body "feed" then Some feed
  else if String.eqb body "feed with empty title" then Some feed_with_empty_title
  else None.

(** What is not one of the bodies above is not JSON. *)
Definition not_json (body : string) : exn := JSONDecodeError.

(** A server that has the packages [demo], [old] and [p] and the feed, and a
    disk that takes every write. *)
Definition E0 : env :=
  Env (fun _ url _ => answers url) (fun _ _ _ => WriteDone)
      loads not_json parse_xml iso_parse.

(** The same with a server that answers 304 with an empty body to the
    request for the artifact of [demo]. *)
Definition E304 : env :=
  Env (fun _ url _ =>
         if String.eqb url "https://files.example/demo-2.0.tar.gz"
         then Some (Response 304 "") else answers url)
      (fun _ _ _ => WriteDone) loads not_json parse_xml iso_parse.

(** The same with a server that cannot be reached. *)
Definition E_down : env :=
  Env (fun _ _ _ => None) (fun _ _ _ => WriteDone)
      loads not_json parse_xml iso_parse.

(** The same with a feed whose second item has an empty title. *)
Definition E_empty_title : env :=
  Env (fun _ url _ =>
         if String.eqb url "https://pypi.org/rss/updates.xml"
         then Some (Response 200 "feed with empty title") else answers url)
      (fun _ _ _ => WriteDone) loads not_json parse_xml iso_parse.

Definition crawler : PyPICrawler := {| download_dir := "pypi_packages_2025_july" |}.

(** An empty output directory and nothing done yet. *)
Definition w0 : world := World ∅ [].

(** The output directory after [demo-2.0.tar.gz] was downloaded. *)
Definition w1 : world :=
  World {["pypi_packages_2025_july/demo-2.0.tar.gz" := File "demo sources"]} [].

End Demo.

(** ** The search stub

    [get_packages_from_search] is called by nothing else and logs a message
    of its own, so it is modelled apart, with the trace of what it does to
    the outside as its state. *)

Module Search.

Inductive search_event : Type :=
| Get (url query classifier : string) (page timeout : Z)
| LogFailed (page : Z) (e : exn).







Section Stub.

(** The answer of the server to a search request, given all that happened
    before ([None]: [Session.get] raises a [RequestException]). *)
Variable answers : list search_event -> string -> string -> Z -> option response.




End Stub.

Definition is_request (ev : search_event) : bool :=
  match ev with Get _ _ _ _ _ => true | LogFailed _ _ => false end.

End Search.

(** ** More notions and scenarios *)

(** The progress messages of a trace: index, total and name. *)
Fixpoint progress_of (tr : list event) : list (nat * nat * string) :=
  match tr with
  | [] => []
  | ELog (MsgProgress i n package_name) :: tr' =>
      (i, n, package_name) :: progress_of tr'
  | _ :: tr' => progress_of tr'
  end.

(** The names of a list numbered from [i], each with the total. *)
Fixpoint numbered (total i : nat) (l : list string)
    : list (nat * nat * string) :=
  match l with
  | [] => []
  | x :: l' => (i, total, x) :: numbered total (S i) l'
  end.

Definition has_no_space (s : string) : bool :=
  forallb (fun a => negb (is_space a)) (list_ascii_of_string s).

(** A token: not empty and without white space. *)
Definition is_token (s : string) : bool :=
  negb (String.eqb s "") && has_no_space s.

(** Events of the candidate source: the request for the feed, with the
    timeout 10, or one of its two messages. *)
Definition feed_event (ev : event) : bool :=
  match ev with
  | EGet url t => String.eqb url "https://pypi.org/rss/updates.xml" && (t =? 10)
  | ELog (MsgRssCount _) | ELog (MsgRssFailed _) => true
  | _ => false
  end.

Module Cases.

(** Metadata whose archive stands behind a record without filename. *)
Definition hidden_archive_info : value :=
  Demo.metadata "1.0"
    [VDict [("url", VStr "https://files.example/a-1.0-py3-none-any.whl")];
     Demo.file_record "a-1.0.tar.gz" "https://files.example/a-1.0.tar.gz"
       "2025-08-01T00:00:00Z"].

(** Metadata whose filename is an absolute path. *)
Definition absolute_name_info : value :=
  Demo.metadata "1.0"
    [Demo.file_record "/tmp/evil-1.0.tar.gz" "https://files.example/evil"
       "2025-08-01T00:00:00Z"].

Definition wheel_record : value :=
  Demo.file_record "demo-2.0-py3-none-any.whl"
    "https://files.example/demo-2.0-py3-none-any.whl" "2025-07-15T00:00:00Z".

(** A document with keys the crawler does not read and with two versions;
    the current one lists the wheel, then the source archive. *)
Definition full_info : value :=
  VDict [("info", VDict [("author", VStr "someone"); ("name", VStr "demo");
                         ("version", VStr "2.0")]);
         ("last_serial", VInt 7);
         ("releases",
          VDict [("1.0", VList []);
                 ("2.0",
                  VList [wheel_record;
                         Demo.file_record "demo-2.0.tar.gz"
                           "https://files.example/demo-2.0.tar.gz"
                           "2024-01-01T00:00:00Z"])]);
         ("urls", VList [])].

(** A document of the same kind whose current version has no file. *)
Definition empty_release_info : value :=
  VDict [("info", VDict [("name", VStr "gone"); ("version", VStr "3.0")]);
         ("last_serial", VInt 9);
         ("releases",
          VDict [("2.0", VList [wheel_record]); ("3.0", VList [])]);
         ("urls", VList [])].

(** A server that answers every request with the same body. *)
Definition E_any : env :=
  Env (fun _ _ _ => Some (Response 200 "payload")) (fun _ _ _ => WriteDone)
      Demo.loads Demo.not_json Demo.parse_xml iso_parse.

(** The example server with a disk that fails after four bytes. *)
Definition E_disk_full : env :=
  Env (fun _ url _ => Demo.answers url) (fun _ _ _ => WriteFails "demo")
      Demo.loads Demo.not_json Demo.parse_xml iso_parse.

(** The example server when it only has [demo] and [old]. *)
Definition loads_typed (body : string) : option value :=
  if String.eqb body "demo metadata" then Some Demo.demo_info
  else if String.eqb body "old metadata" then Some Demo.old_info
  else None.

Definition E_typed : env :=
  Env (fun _ url _ => Demo.answers url) (fun _ _ _ => WriteDone)
      loads_typed Demo.not_json Demo.parse_xml iso_parse.

(** A server that answers every request with an empty JSON object. *)
Definition E_empty_object : env :=
  Env (fun _ _ _ => Some (Response 200 "empty object"))
      (fun _ _ _ => WriteDone) (fun _ => Some (VDict [])) Demo.not_json
      Demo.parse_xml iso_parse.

(** A server whose every body holds an integer literal longer than the
    digit limit of the interpreter: [json.loads] raises [ValueError]. *)
Definition E_long_number : env :=
  Env (fun _ _ _ => Some (Response 200 "long number"))
      (fun _ _ _ => WriteDone) (fun _ => None) (fun _ => ValueError)
      Demo.parse_xml iso_parse.

End Cases.

(** * Properties *)

(** ** Strings and values *)

Example endswith_source_archive :
  str_endswith "demo-2.0.tar.gz" ".tar.gz" = true
  /\ str_endswith "demo-2.0-py3-none-any.whl" ".tar.gz" = false
  /\ str_endswith "gz" ".tar.gz" = false.
Proof. repeat split. Qed.

Example replace_every_Z :
  str_replace "Z" "+00:00" "2025-07-15T00:00:00Z" = "2025-07-15T00:00:00+00:00".
Proof. reflexivity. Qed.

Example split_on_white_space :
  str_split "  foo 1.2.3 " = ["foo"; "1.2.3"] /\ str_split "   " = [].
Proof. split; reflexivity. Qed.

Example join_paths :
  os_path_join "pypi_packages" "a.whl" = "pypi_packages/a.whl"
  /\ os_path_join "pypi_packages/" "a.whl" = "pypi_packages/a.whl"
  /\ os_path_join "pypi_packages" "/tmp/a.whl" = "/tmp/a.whl".
Proof. repeat split. Qed.

Example subscripts :
  getitem (VList [VInt 1; VInt 2]) (VInt (-1)) = Ok (VInt 2)
  /\ getitem (VList []) (VInt 0) = Raise IndexError
  /\ getitem (VDict [("a", VNone)]) (VStr "b") = Raise KeyError
  /\ getitem (VDict [("a", VNone)]) (VInt 0) = Raise KeyError
  /\ getitem VNone (VStr "info") = Raise TypeError
  /\ getitem (VStr "abc") (VStr "info") = Raise TypeError.
Proof. repeat split. Qed.

Example membership :
  contains (VStr "1.0") (VDict [("1.0", VList [])]) = Ok true
  /\ contains (VInt 1) (VDict [("1", VList [])]) = Ok false
  /\ contains (VBool true) (VList [VInt 1]) = Ok true
  /\ contains (VStr "1.0") VNone = Raise TypeError.
Proof. repeat split. Qed.

Example iso_parse_utc :
  iso_parse "2025-07-15T00:00:00+00:00"
  = Some (Datetime 2025 7 15 0 0 0 0 (Some 0)).
Proof. reflexivity. Qed.

Example iso_parse_microseconds :
  iso_parse "2025-06-30T23:59:59.123456-05:00"
  = Some (Datetime 2025 6 30 23 59 59 123456 (Some (-18000000000))).
Proof. reflexivity. Qed.

Example iso_parse_date_only :
  iso_parse "2024-02-29" = Some (Datetime 2024 2 29 0 0 0 0 None)
  /\ iso_parse "2025-02-29" = None.
Proof. split; reflexivity. Qed.

Lemma append_assoc (a b c : string) : (a +:+ b) +:+ c = a +:+ (b +:+ c).
Proof.
  induction a as [|x a IH]; [reflexivity|].
  change (String x ((a +:+ b) +:+ c) = String x (a +:+ (b +:+ c))).
  now f_equal.
Qed.

Lemma str_replace_app (old : ascii) (new a b : string) :
  str_replace old new (a +:+ b)
  = str_replace old new a +:+ str_replace old new b.
Proof.
  induction a as [|x a IH]; [reflexivity|].
  change (String x a +:+ b) with (String x (a +:+ b)).
  cbn [str_replace]. rewrite IH.
  destruct (Ascii.eqb x old).
  - now rewrite append_assoc.
  - reflexivity.
Qed.

Lemma seq_index_head {A} (x : A) (l : list A) : seq_index (x :: l) 0 = Ok x.
Proof.
  unfold seq_index.
  replace (0 <? 0) with false by reflexivity.
  replace ((0 <=? 0) && (0 <? Z.of_nat (length (x :: l)))) with true.
  - reflexivity.
  - symmetry. apply andb_true_intro. split; [reflexivity|].
    apply Z.ltb_lt. cbn [length]. lia.
Qed.

Lemma getitem_field (k : string) (v x : value) :
  field k v = Some x -> getitem v (VStr k) = Ok x.
Proof. destruct v; try discriminate. cbn. now intros ->. Qed.

Lemma assoc_forallb {A} (p : A -> bool) (k : string) (d : list (string * A)) (v : A) :
  forallb (fun kv => p (snd kv)) d = true -> assoc k d = Some v -> p v = true.
Proof.
  induction d as [|[k' v'] d IH]; cbn; [discriminate|].
  intros [Hv Hd]%andb_prop.
  destruct (String.eqb k k'); [intros [= <-]; exact Hv | now apply IH].
Qed.

(** ** The recency filter *)

Lemma on_or_after_cutoff_Z (E : env) (prefix : string) :
  on_or_after_cutoff E (VStr (prefix +:+ "Z"))
  = on_or_after_cutoff E (VStr (prefix +:+ "+00:00")).
Proof.
  unfold on_or_after_cutoff, replace. cbn [res_bind].
  now rewrite !str_replace_app.
Qed.

(** C6.  Two metadata documents whose first-file upload timestamps are the
    same text followed by [Z] in one and by [+00:00] in the other get the
    same answer from the recency filter (the same result or exception, and
    the same log). *)
Theorem trailing_Z_same_as_utc_offset (E : env) (prefix : string)
    (doc_z doc_offset : value) (w : world) :
  first_upload_time doc_z = Ok (Some (VStr (prefix +:+ "Z"))) ->
  first_upload_time doc_offset = Ok (Some (VStr (prefix +:+ "+00:00"))) ->
  is_updated_since_july_2025 E doc_z w
  = is_updated_since_july_2025 E doc_offset w.
Proof.
  intros Hz Ho.
  unfold is_updated_since_july_2025, upload_check.
  rewrite Hz, Ho. cbn [res_bind].
  now rewrite on_or_after_cutoff_Z.
Qed.

Lemma trailing_Z_same_as_utc_offset_witness :
  is_updated_since_july_2025 Demo.E0 Demo.demo_info Demo.w0
  = is_updated_since_july_2025 Demo.E0 Demo.demo_info_offset Demo.w0.
Proof.
  apply (trailing_Z_same_as_utc_offset Demo.E0 "2025-07-15T00:00:00");
    reflexivity.
Defined.

(** On a document with the types of the data model the [try] body returns
    what the specification says, falls through, or raises one of the three
    exceptions the handler catches. *)
Lemma upload_check_typed (E : env) (doc : value) :
  is_metadata doc = true ->
  match upload_check E doc with
  | Ok (Some b) => b = recent_by_spec E doc
  | Ok None => recent_by_spec E doc = false
  | Raise e => is_lookup_or_parse_error e = true /\ recent_by_spec E doc = false
  end.
Proof.
  destruct doc as [| | | |?|d]; try discriminate.
  unfold is_metadata, field_ok.
  intros [Hinfo Hrel]%andb_prop.
  unfold upload_check, first_upload_time, recent_by_spec, field.
  cbn [getitem res_bind mbind option_bind].
  destruct (assoc "info" d) as [info|]; [|now split].
  destruct info as [| | | |?|di]; try discriminate.
  cbn [getitem res_bind mbind option_bind].
  destruct (assoc "version" di) as [version|]; [|now split].
  destruct version as [| | |ver| |]; try discriminate.
  cbn [res_bind].
  destruct (assoc "releases" d) as [releases|]; [|now split].
  destruct releases as [| | | |?|dr]; try discriminate.
  cbn [contains getitem res_bind].
  destruct (assoc ver dr) as [files|] eqn:Hfiles; [|reflexivity].
  cbn [res_bind].
  pose proof (assoc_forallb is_file_list ver dr files Hrel Hfiles) as Hlist.
  destruct files as [| | | |l|]; try discriminate.
  destruct l as [|first rest]; [reflexivity|].
  cbn [truthy getitem]. rewrite seq_index_head. cbn [res_bind].
  cbn [is_file_list forallb] in Hlist.
  apply andb_prop in Hlist as [Hfirst _].
  unfold is_file_record in Hfirst.
  apply andb_prop in Hfirst as [_ Htime].
  unfold field_ok in Htime.
  destruct first as [| | | |?|fd]; try discriminate.
  cbn [getitem].
  destruct (assoc "upload_time_iso_8601" fd) as [t|]; [|now split].
  destruct t as [| | |upload_time| |]; try discriminate.
  cbn [res_bind on_or_after_cutoff replace].
  destruct (fromisoformat E _); [reflexivity|now split].
Qed.

(** On a document with the types of the data model the recency filter
    returns, touches neither disk nor network, and its answer is the one the
    specification describes: true exactly when the current version is a key
    of the releases, its file list is not empty, the upload time of the
    first file parses and the instant is on or after the cutoff. *)
Lemma recency_filter_on_typed_metadata (E : env) (doc : value) (w : world) :
  is_metadata doc = true ->
  exists w',
    is_updated_since_july_2025 E doc w = (w', Ok (recent_by_spec E doc))
    /\ fs w' = fs w
    /\ List.filter is_get (trace w') = List.filter is_get (trace w).
Proof.
  intros Hdoc. pose proof (upload_check_typed E doc Hdoc) as H.
  unfold is_updated_since_july_2025, bind, try_except, lift, ret.
  destruct (upload_check E doc) as [[b|]|e].
  - subst b. now exists w.
  - rewrite H. now exists w.
  - destruct H as [-> ->]. cbn.
    eexists. split; [reflexivity|]. split; [reflexivity|].
    cbn. rewrite List.filter_app. cbn. now rewrite app_nil_r.
Qed.

(** The comparison with the cutoff, spelled out for a valid date: the date
    is in 2025 from July on, or in a later year. *)
Lemma on_or_after_cutoff_date (d : datetime) :
  1 <= month d -> 1 <= day d ->
  0 <= hour d -> 0 <= minute d -> 0 <= second d -> 0 <= microsecond d ->
  datetime_ge d (cutoff_date (tzinfo d)) = true
  <-> 2025 < year d \/ (year d = 2025 /\ 7 <= month d).
Proof.
  intros Hm Hd Hh Hmi Hs Hu.
  unfold datetime_ge, cutoff_date, fields. cbn [lex_compare year month day
    hour minute second microsecond].
  destruct (Z.compare_spec (year d) 2025);
    [destruct (Z.compare_spec (month d) 7);
      [destruct (Z.compare_spec (day d) 1);
        [destruct (Z.compare_spec (hour d) 0);
          [destruct (Z.compare_spec (minute d) 0);
            [destruct (Z.compare_spec (second d) 0);
              [destruct (Z.compare_spec (microsecond d) 0)|..]|..]|..]|..]|..]|..];
    split; intros; try reflexivity; try discriminate; lia.
Qed.

(** C1.  The recency filter does not return false on every document on
    which a lookup or the parse fails: when the first file of the current
    version has [null] for its upload time, [upload_time.replace] raises
    [AttributeError], which is not in the handler's tuple
    [(KeyError, ValueError, IndexError)], and the exception leaves the
    function. *)
Theorem recency_filter_raises_on_null_upload_time (E : env) (w : world) :
  is_updated_since_july_2025 E Demo.null_timestamp_info w
  = (w, Raise AttributeError).
Proof. reflexivity. Qed.

(** ** The artifact selector *)

Lemma has_filename_getitem (file_info : value) :
  has_filename file_info = true ->
  exists f, getitem file_info (VStr "filename") = Ok (VStr f)
            /\ field "filename" file_info = Some (VStr f)
            /\ truthy file_info = true.
Proof.
  unfold has_filename, field.
  destruct file_info as [| | | |?|d]; try discriminate.
  cbn [getitem].
  destruct (assoc "filename" d) as [[| | |f| |]|] eqn:Hf; try discriminate.
  intros _. exists f. repeat split.
  destruct d; [discriminate|reflexivity].
Qed.

(** One loop of the selector is a search for the first record whose filename
    has the suffix. *)
Lemma first_with_suffix_find (suffix : string) (files : list value) :
  forallb has_filename files = true ->
  first_with_suffix suffix files
  = Ok (default VNone (List.find (filename_ends suffix) files)).
Proof.
  induction files as [|file_info rest IH]; [reflexivity|].
  cbn [forallb]. intros [Hhd Htl]%andb_prop.
  destruct (has_filename_getitem _ Hhd) as (f & Hget & Hfield & _).
  cbn [first_with_suffix List.find]. unfold filename_ends.
  rewrite Hget, Hfield. cbn [res_bind endswith].
  destruct (str_endswith f suffix); [reflexivity|].
  now apply IH.
Qed.

Lemma find_has_filename (suffix : string) (files : list value) (r : value) :
  List.find (filename_ends suffix) files = Some r ->
  has_filename r = true /\ filename_ends suffix r = true /\ In r files.
Proof.
  intros H. apply List.find_some in H as [Hin Hends].
  repeat split; [|exact Hends|exact Hin].
  unfold filename_ends in Hends. unfold has_filename.
  now destruct (field "filename" r) as [[| | |f| |]|].
Qed.

Lemma select_file_preferred (files : list value) :
  forallb has_filename files = true ->
  select_file files = Ok (default VNone (preferred_file files)).
Proof.
  intros Hfiles. unfold select_file, preferred_file.
  rewrite !first_with_suffix_find by exact Hfiles.
  cbn [res_bind].
  destruct (List.find (filename_ends ".tar.gz") files) as [r|] eqn:Hfind.
  - apply find_has_filename in Hfind as [Hr _].
    destruct (has_filename_getitem _ Hr) as (_ & _ & _ & Htruthy).
    cbn [from_option]. unfold id. now rewrite Htruthy.
  - reflexivity.
Qed.

(** Both orders of a wheel and a source archive give the source archive. *)
Example archive_first_or_last (wheel archive : value) :
  has_filename wheel = true -> filename_ends ".tar.gz" wheel = false ->
  filename_ends ".tar.gz" archive = true ->
  select_file [wheel; archive] = Ok archive
  /\ select_file [archive; wheel] = Ok archive.
Proof.
  intros Hw Hnw Ha.
  assert (has_filename archive = true) as Hfa.
  { unfold filename_ends in Ha. unfold has_filename.
    now destruct (field "filename" archive) as [[| | |f| |]|]. }
  split; rewrite select_file_preferred; cbn [forallb]; rewrite ?Hw, ?Hfa;
    try reflexivity; unfold preferred_file; cbn [List.find];
    rewrite ?Hnw, ?Ha; reflexivity.
Qed.

(** ** The downloader *)

Section Downloader.

Variable E : env.
Variable self : PyPICrawler.

Lemma getitem_key_truthy (v : value) (k : string) (x : value) :
  getitem v (VStr k) = Ok x -> truthy v = true.
Proof.
  destruct v as [| | | |?|d]; try discriminate.
  destruct d; [discriminate|reflexivity].
Qed.

Lemma download_package_selected (package_name : string) (package_info : value)
    (selected download_url : value) (filename : string) (w : world) :
  tar_gz_file package_info = Ok selected ->
  getitem selected (VStr "url") = Ok download_url ->
  getitem selected (VStr "filename") = Ok (VStr filename) ->
  download_package E self package_name package_info w
  = download_selected E self package_name download_url filename w.
Proof.
  intros Hsel Hurl Hname.
  pose proof (getitem_key_truthy _ _ _ Hname) as Htruthy.
  unfold download_package, download_selected, try_except, bind, lift, log,
    emit, ret, path_exists, raise_for_status, write_file.
  rewrite Hsel, Htruthy, Hurl, Hname.
  destruct (fs w !! os_path_join (download_dir self) filename); [reflexivity|].
  destruct (fetch_artifact E download_url _) as [w2 [r|e]]; [|reflexivity].
  destruct (error_status r);
    [reflexivity|].
  unfold ret. now destruct (disk E w2 _ _).
Qed.

(** Every run of [download_package] that does not select a record with a
    [url] and a string [filename] fails with the disk untouched. *)
Lemma download_package_not_selected (package_name : string)
    (package_info : value) (w : world) :
  (forall selected download_url filename,
     tar_gz_file package_info = Ok selected ->
     getitem selected (VStr "url") = Ok download_url ->
     getitem selected (VStr "filename") = Ok (VStr filename) -> False) ->
  exists m,
    download_package E self package_name package_info w
    = (add_event (ELog m) w, Ok false).
Proof.
  intros Hnot.
  unfold download_package, try_except, bind, lift, log, emit, ret, raise.
  destruct (tar_gz_file package_info) as [selected|e] eqn:Hsel;
    [|eexists; reflexivity].
  destruct (truthy selected); [|eexists; reflexivity].
  destruct (getitem selected (VStr "url")) as [u|e] eqn:Hurl;
    [|eexists; reflexivity].
  destruct (getitem selected (VStr "filename")) as [f|e] eqn:Hname;
    [|eexists; reflexivity].
  destruct f as [| | |f| |]; try (eexists; reflexivity).
  exfalso. eapply Hnot; eauto.
Qed.

Lemma fetch_artifact_fs (download_url : value) (w w' : world) (r : res response) :
  fetch_artifact E download_url w = (w', r) -> fs w' = fs w.
Proof.
  unfold fetch_artifact, session_get, raise.
  destruct download_url as [| | |url| |]; try (now intros [= <- _]).
  destruct (server E w url 30); now intros [= <- _].
Qed.

End Downloader.



(** C5.  When the record selected for a package has its [url] and a file
    named as its [filename] already exists in the output directory,
    [download_package] logs that, returns true, sends no request and leaves
    the disk as it is; and so a second run of the download step after a run
    that returned true returns true again, with no request and no change on
    disk. *)
Theorem existing_file_is_not_downloaded_again (E : env) (self : PyPICrawler)
    (package_name : string) (package_info : value) :
  (forall (selected download_url : value) (filename : string) (w : world),
     tar_gz_file package_info = Ok selected ->
     getitem selected (VStr "url") = Ok download_url ->
     getitem selected (VStr "filename") = Ok (VStr filename) ->
     is_Some (fs w !! os_path_join (download_dir self) filename) ->
     download_package E self package_name package_info w
     = (add_event (ELog (MsgExists filename)) w, Ok true))
  /\ (forall (w w1 : world),
        download_package E self package_name package_info w = (w1, Ok true) ->
        exists filename,
          download_package E self package_name package_info w1
          = (add_event (ELog (MsgExists filename)) w1, Ok true)).
Proof.
  assert (forall selected download_url filename w,
     tar_gz_file package_info = Ok selected ->
     getitem selected (VStr "url") = Ok download_url ->
     getitem selected (VStr "filename") = Ok (VStr filename) ->
     is_Some (fs w !! os_path_join (download_dir self) filename) ->
     download_package E self package_name package_info w
     = (add_event (ELog (MsgExists filename)) w, Ok true)) as Hskip.
  { intros selected download_url filename w Hsel Hurl Hname [n Hn].
    rewrite (download_package_selected E self _ _ _ _ _ _ Hsel Hurl Hname).
    unfold download_selected. now rewrite Hn. }
  split; [exact Hskip|].
  intros w w1 Hrun.
  destruct (tar_gz_file package_info) as [selected|e] eqn:Hsel.
  2:{ destruct (download_package_not_selected E self package_name
        package_info w) as [m Hm]; [intros; congruence|congruence]. }
  destruct (getitem selected (VStr "url")) as [download_url|e] eqn:Hurl.
  2:{ destruct (download_package_not_selected E self package_name
        package_info w) as [m Hm]; [intros; congruence|congruence]. }
  destruct (getitem selected (VStr "filename")) as [[| | |filename| |]|e] eqn:Hname;
    try (destruct (download_package_not_selected E self package_name
        package_info w) as [m Hm]; [intros; congruence|congruence]).
  exists filename.
  assert (is_Some (fs w1 !! os_path_join (download_dir self) filename)) as Hex.
  { rewrite (download_package_selected E self _ _ _ _ _ _ Hsel Hurl Hname)
      in Hrun.
    unfold download_selected in Hrun.
    destruct (fs w !! os_path_join (download_dir self) filename) eqn:Hpath.
    - injection Hrun as <-. unfold add_event. cbn [fs]. rewrite Hpath. eauto.
    - destruct (fetch_artifact E download_url _) as [w2 [r|e]];
        [|discriminate].
      destruct (error_status r); [discriminate|].
      destruct (disk E w2 _ _); try discriminate.
      injection Hrun as <-. unfold add_event, put_file. cbn [fs].
      rewrite lookup_insert_eq. eauto. }
  now apply (Hskip selected download_url).
Qed.

Lemma existing_file_is_not_downloaded_again_witness :
  download_package Demo.E0 Demo.crawler "demo" Demo.demo_info Demo.w1
  = (add_event (ELog (MsgExists "demo-2.0.tar.gz")) Demo.w1, Ok true).
Proof.
  apply (proj1 (existing_file_is_not_downloaded_again Demo.E0 Demo.crawler
           "demo" Demo.demo_info)
         (Demo.file_record "demo-2.0.tar.gz"
            "https://files.example/demo-2.0.tar.gz" "2025-07-15T00:00:00Z")
         (VStr "https://files.example/demo-2.0.tar.gz"));
    [reflexivity|reflexivity|reflexivity|].
  exists (File "demo sources"). reflexivity.
Defined.

(** C9, as stated, fails: a response with status 304 to the request for the
    artifact is not a 2xx response, yet [raise_for_status] raises only for
    4xx and 5xx, so [download_package] writes the (empty) body to a new
    file and returns true. *)
Lemma not_modified_response_is_saved :
  server Demo.E304
    (add_event (ELog (MsgDownloading "demo-2.0.tar.gz")) Demo.w0)
    "https://files.example/demo-2.0.tar.gz" 30
  = Some (Response 304 "")
  /\ (200 <=? 304) && (304 <? 300) = false
  /\ snd (download_package Demo.E304 Demo.crawler "demo" Demo.demo_info Demo.w0)
     = Ok true
  /\ fs Demo.w0 !! "pypi_packages_2025_july/demo-2.0.tar.gz" = None
  /\ fs (fst (download_package Demo.E304 Demo.crawler "demo" Demo.demo_info
                Demo.w0))
     !! "pypi_packages_2025_july/demo-2.0.tar.gz" = Some (File "").
Proof. repeat split; vm_compute; reflexivity. Qed.

(** C9, amended.  On every error path of [download_package] that ends
    before the write (the lookups up to the selection fail, no file has a
    wanted suffix, the record has no [url], or the retrieval fails with a
    transport error or a 4xx or 5xx status) the function returns false and
    the disk is unchanged. *)
Theorem failed_download_leaves_disk_unchanged (E : env) (self : PyPICrawler)
    (package_name : string) (package_info : value) (w : world) :
  fails_before_write E self package_info w ->
  exists w',
    download_package E self package_name package_info w = (w', Ok false)
    /\ fs w' = fs w.
Proof.
  intros [e He|selected Hsel Hfalse|selected e Hsel Htrue He
          |selected download_url filename Hsel Hurl Hname Hpath Hfail].
  - eexists. split.
    + unfold download_package, try_except, bind, lift. rewrite He.
      reflexivity.
    + reflexivity.
  - eexists. split.
    + unfold download_package, try_except, bind, lift.
      rewrite Hsel, Hfalse. reflexivity.
    + reflexivity.
  - eexists. split.
    + unfold download_package, try_except, bind, lift.
      rewrite Hsel, Htrue, He. reflexivity.
    + reflexivity.
  - rewrite (download_package_selected E self _ _ _ _ _ _ Hsel Hurl Hname).
    unfold download_selected. rewrite Hpath.
    unfold retrieval_fails in Hfail. unfold fetch_artifact, session_get, raise.
    destruct download_url as [| | |url| |];
      try (eexists; split; reflexivity).
    destruct (server E _ url 30) as [r|].
    + rewrite Hfail. eexists; split; reflexivity.
    + eexists; split; reflexivity.
Qed.

Lemma failed_download_leaves_disk_unchanged_witness :
  exists w',
    download_package Demo.E_down Demo.crawler "demo" Demo.demo_info Demo.w0
    = (w', Ok false)
    /\ fs w' = fs Demo.w0.
Proof.
  apply failed_download_leaves_disk_unchanged.
  apply (retrieval_failed Demo.E_down Demo.crawler Demo.demo_info Demo.w0
           (Demo.file_record "demo-2.0.tar.gz"
              "https://files.example/demo-2.0.tar.gz" "2025-07-15T00:00:00Z")
           (VStr "https://files.example/demo-2.0.tar.gz") "demo-2.0.tar.gz");
    reflexivity.
Defined.

Lemma first_with_suffix_found (suffix : string) (files : list value)
    (v : value) :
  first_with_suffix suffix files = Ok v ->
  v = VNone \/ exists f, getitem v (VStr "filename") = Ok (VStr f).
Proof.
  induction files as [|file_info rest IH]; cbn [first_with_suffix].
  - intros [= <-]. now left.
  - destruct (getitem file_info (VStr "filename")) as [name|e] eqn:Hname;
      [|discriminate].
    cbn [res_bind].
    destruct name as [| | |f| |]; try discriminate. cbn [endswith res_bind].
    destruct (str_endswith f suffix); [|exact IH].
    intros [= <-]. right. now exists f.
Qed.

(** A selected record has a filename that is a string. *)
Lemma selected_has_filename (package_info selected : value) :
  tar_gz_file package_info = Ok selected ->
  truthy selected = true ->
  exists f, getitem selected (VStr "filename") = Ok (VStr f).
Proof.
  unfold tar_gz_file, select_file.
  destruct (current_files package_info) as [files|e]; [|discriminate].
  cbn [res_bind].
  destruct (first_with_suffix ".tar.gz" files) as [found|e] eqn:Hfirst;
    [|discriminate].
  cbn [res_bind].
  destruct (truthy found) eqn:Hfound; cbn [negb].
  - intros [= <-] _.
    destruct (first_with_suffix_found _ _ _ Hfirst) as [->|H];
      [discriminate|exact H].
  - intros Hsecond Htruthy.
    destruct (first_with_suffix_found _ _ _ Hsecond) as [->|H];
      [discriminate|exact H].
Qed.

(** The error paths listed by [fails_before_write] are all there are: a run
    of [download_package] that returns false took one of them, or reached
    the write and the disk refused it. *)
Lemma download_false_before_or_at_write (E : env) (self : PyPICrawler)
    (package_name : string) (package_info : value) (w w' : world) :
  download_package E self package_name package_info w = (w', Ok false) ->
  fails_before_write E self package_info w
  \/ exists selected filename r w2,
       tar_gz_file package_info = Ok selected
       /\ getitem selected (VStr "filename") = Ok (VStr filename)
       /\ error_status r = false
       /\ disk E w2 (os_path_join (download_dir self) filename) (content r)
          <> WriteDone.
Proof.
  intros Hrun.
  destruct (tar_gz_file package_info) as [selected|e] eqn:Hsel;
    [|left; eapply lookup_fails; eauto].
  destruct (truthy selected) eqn:Htruthy;
    [|left; eapply nothing_selected; eauto].
  destruct (getitem selected (VStr "url")) as [download_url|e] eqn:Hurl;
    [|left; eapply url_missing; eauto].
  destruct (selected_has_filename _ _ Hsel Htruthy) as [filename Hname].
  rewrite (download_package_selected E self _ _ _ _ _ _ Hsel Hurl Hname)
    in Hrun.
  unfold download_selected in Hrun.
  destruct (fs w !! os_path_join (download_dir self) filename) eqn:Hpath;
    [discriminate|].
  destruct (fetch_artifact E download_url _) as [w2 [r|e]] eqn:Hfetch.
  - destruct (error_status r) eqn:Hstatus.
    + left. eapply retrieval_failed; eauto.
      unfold retrieval_fails. unfold fetch_artifact, session_get, raise in Hfetch.
      destruct download_url as [| | |url| |]; try reflexivity.
      destruct (server E _ url 30); [|reflexivity].
      now injection Hfetch as _ <-.
    + right. exists selected, filename, r, w2. repeat split; try assumption.
      intros Hdisk. rewrite Hdisk in Hrun. discriminate.
  - left. eapply retrieval_failed; eauto.
    unfold retrieval_fails. unfold fetch_artifact, session_get, raise in Hfetch.
    destruct download_url as [| | |url| |]; try reflexivity.
    now destruct (server E _ url 30).
Qed.

(** [download_package] always returns: every exception is caught. *)
Lemma download_package_returns (E : env) (self : PyPICrawler)
    (package_name : string) (package_info : value) (w : world) :
  exists w' b, download_package E self package_name package_info w = (w', Ok b).
Proof.
  unfold download_package, try_except.
  match goal with |- context [bind ?c ?k w] => destruct (bind c k w) as [w' [b|e]] end.
  - now exists w', b.
  - eexists _, _. reflexivity.
Qed.

(** ** The candidate source *)

Lemma first_token_spec (text : option string) :
  first_token text
  = if no_tokens text
    then Raise (match text with Some _ => IndexError | None => AttributeError end)
    else Ok (first_word text).
Proof.
  destruct text as [s|]; [|reflexivity].
  unfold first_token, no_tokens, first_word.
  destruct (str_split s) as [|t l]; [reflexivity|apply seq_index_head].
Qed.

Lemma collect_names_ok (items : list element) (packages : list string) :
  existsb no_tokens (titles_of items) = false ->
  collect_names items packages
  = Ok (fold_left add_name (map first_word (titles_of items)) packages).
Proof.
  revert packages.
  induction items as [|item rest IH]; intros packages; [reflexivity|].
  unfold titles_of. cbn [collect_names omap list_omap].
  destruct (find_child "title" item) as [title|]; cbn [fmap option_fmap option_map].
  - fold (titles_of rest). cbn [existsb map fold_left].
    intros [Htok Hrest]%orb_false_elim.
    rewrite first_token_spec, Htok. cbn [res_bind]. unfold add_name at 2.
    destruct (existsb _ packages); now apply IH.
  - fold (titles_of rest). apply IH.
Qed.

Lemma collect_names_raises (items : list element) (packages : list string) :
  existsb no_tokens (titles_of items) = true ->
  exists e, collect_names items packages = Raise e.
Proof.
  revert packages.
  induction items as [|item rest IH]; intros packages; [discriminate|].
  unfold titles_of. cbn [collect_names omap list_omap].
  destruct (find_child "title" item) as [title|]; cbn [fmap option_fmap option_map].
  - fold (titles_of rest). cbn [existsb].
    rewrite first_token_spec.
    destruct (no_tokens (text_of title)); [eexists; reflexivity|].
    cbn [orb res_bind]. intros Hrest.
    destruct (existsb _ packages); now apply IH.
  - fold (titles_of rest). apply IH.
Qed.

Lemma filter_filter_comm (p q : string -> bool) (l : list string) :
  List.filter p (List.filter q l) = List.filter q (List.filter p l).
Proof.
  induction l as [|x l IH]; [reflexivity|].
  cbn [List.filter].
  destruct (p x) eqn:Hp, (q x) eqn:Hq; cbn [List.filter];
    rewrite ?Hp, ?Hq, IH; reflexivity.
Qed.

Lemma filter_absorb (p : string -> bool) (y : string) (l : list string) :
  p y = false ->
  List.filter p (List.filter (fun z => negb (String.eqb z y)) l)
  = List.filter p l.
Proof.
  intros Hy. induction l as [|x l IH]; [reflexivity|].
  cbn [List.filter].
  destruct (String.eqb_spec x y) as [->|Hne]; cbn [negb List.filter].
  - now rewrite Hy.
  - now rewrite IH.
Qed.

Lemma dedup_filter (p : string -> bool) (l : list string) :
  dedup_keep_first (List.filter p l) = List.filter p (dedup_keep_first l).
Proof.
  induction l as [|x l IH]; [reflexivity|].
  cbn [List.filter dedup_keep_first].
  destruct (p x) eqn:Hp; cbn [dedup_keep_first List.filter].
  - rewrite IH. f_equal. apply filter_filter_comm.
  - rewrite IH. symmetry. now apply filter_absorb.
Qed.

Lemma existsb_app_single (x y : string) (acc : list string) :
  negb (existsb (String.eqb x) (acc ++ [y]))
  = negb (existsb (String.eqb x) acc) && negb (String.eqb x y).
Proof.
  rewrite List.existsb_app. cbn [existsb].
  rewrite orb_false_r. apply negb_orb.
Qed.

Lemma filter_and (p q : string -> bool) (l : list string) :
  List.filter (fun x => p x && q x) l = List.filter q (List.filter p l).
Proof.
  induction l as [|x l IH]; [reflexivity|].
  cbn [List.filter].
  destruct (p x); cbn [andb List.filter]; [destruct (q x)|]; now rewrite IH.
Qed.

(** The accumulating loop computes the first occurrences. *)
Lemma fold_add_name (names acc : list string) :
  fold_left add_name names acc
  = acc ++ dedup_keep_first
             (List.filter (fun x => negb (existsb (String.eqb x) acc)) names).
Proof.
  revert acc. induction names as [|x names IH]; intros acc.
  - cbn. now rewrite app_nil_r.
  - cbn [fold_left List.filter]. unfold add_name at 2.
    destruct (existsb (String.eqb x) acc) eqn:Hx; cbn [negb].
    + apply IH.
    + rewrite IH. rewrite <- app_assoc. cbn [app dedup_keep_first].
      do 2 f_equal.
      rewrite <- dedup_filter. f_equal.
      rewrite <- filter_and.
      apply List.filter_ext. intros z. apply existsb_app_single.
Qed.

Lemma collect_names_first_occurrences (items : list element) :
  existsb no_tokens (titles_of items) = false ->
  collect_names items []
  = Ok (dedup_keep_first (map first_word (titles_of items))).
Proof.
  intros H. rewrite collect_names_ok by exact H.
  rewrite fold_add_name. cbn [app]. f_equal. f_equal.
  induction (map first_word (titles_of items)) as [|x l IH]; [reflexivity|].
  cbn [List.filter existsb negb]. now f_equal.
Qed.

(** The candidate source always returns, and what it returns. *)
Lemma get_recent_packages_result (E : env) (w : world) :
  exists w',
    get_recent_packages_from_rss E w
    = (w', Ok match server E w "https://pypi.org/rss/updates.xml" 10 with
              | Some r =>
                  if error_status r then []
                  else match ET_fromstring E (content r) with
                       | Some root => candidates_of_feed root
                       | None => []
                       end
              | None => []
              end)
    /\ fs w' = fs w.
Proof.
  unfold get_recent_packages_from_rss, try_except, bind, session_get,
    raise_for_status, parse_feed, lift, log, emit, ret, raise.
  destruct (server E w _ 10) as [r|]; [|eexists; split; reflexivity].
  destruct (error_status r);
    [eexists; split; reflexivity|].
  destruct (ET_fromstring E (content r)) as [root|];
    [|eexists; split; reflexivity].
  unfold candidates_of_feed, item_titles.
  destruct (existsb no_tokens (titles_of (findall_descendants "item" root)))
    eqn:Htok.
  - destruct (collect_names_raises _ [] Htok) as [e ->].
    eexists; split; reflexivity.
  - rewrite (collect_names_first_occurrences _ Htok).
    eexists; split; reflexivity.
Qed.

(** The events and the result of the candidate source. *)
Lemma get_recent_packages_events (E : env) (w : world) :
  exists m,
    trace (fst (get_recent_packages_from_rss E w))
    = trace w ++ [EGet "https://pypi.org/rss/updates.xml" 10; ELog m]
    /\ ((exists e, m = MsgRssFailed e
                   /\ snd (get_recent_packages_from_rss E w) = Ok [])
        \/ exists r root,
             server E w "https://pypi.org/rss/updates.xml" 10 = Some r
             /\ ET_fromstring E (content r) = Some root
             /\ m = MsgRssCount
                      (length (dedup_keep_first
                                 (map first_word (item_titles root))))
             /\ snd (get_recent_packages_from_rss E w)
                = Ok (take 100 (dedup_keep_first
                                  (map first_word (item_titles root))))).
Proof.
  unfold get_recent_packages_from_rss, try_except, bind, session_get,
    raise_for_status, parse_feed, lift, log, emit, ret, raise, add_event.
  destruct (server E w _ 10) as [r|] eqn:Hserver.
  2:{ eexists. cbn [fst snd trace]. rewrite <- app_assoc.
      split; [reflexivity|]. left. eauto. }
  destruct (error_status r).
  { eexists. cbn [fst snd trace]. rewrite <- app_assoc.
    split; [reflexivity|]. left. eauto. }
  destruct (ET_fromstring E (content r)) as [root|] eqn:Hparse.
  2:{ eexists. cbn [fst snd trace]. rewrite <- app_assoc.
      split; [reflexivity|]. left. eauto. }
  destruct (existsb no_tokens (titles_of (findall_descendants "item" root)))
    eqn:Htok.
  - destruct (collect_names_raises _ [] Htok) as [e ->].
    eexists. cbn [fst snd trace]. rewrite <- app_assoc.
    split; [reflexivity|]. left. eauto.
  - rewrite (collect_names_first_occurrences _ Htok).
    eexists. cbn [fst snd trace]. rewrite <- app_assoc.
    split; [reflexivity|]. right. exists r, root. auto.
Qed.

(** C7.  The candidate source never raises and leaves the disk alone.  When
    the feed is fetched and parsed, it returns the first
    whitespace-delimited token of each item title, first occurrences only in
    item order, cut to 100 names.  When the request fails, the status is an
    error, the document does not parse or a title has no token, it returns
    the empty list. *)
Theorem feed_candidates (E : env) (w : world) :
  exists w' names,
    get_recent_packages_from_rss E w = (w', Ok names)
    /\ fs w' = fs w
    /\ (forall r root,
          server E w "https://pypi.org/rss/updates.xml" 10 = Some r ->
          error_status r = false ->
          ET_fromstring E (content r) = Some root ->
          existsb no_tokens (item_titles root) = false ->
          names = take 100 (dedup_keep_first
                              (map first_word (item_titles root))))
    /\ (server E w "https://pypi.org/rss/updates.xml" 10 = None ->
        names = [])
    /\ (forall r,
          server E w "https://pypi.org/rss/updates.xml" 10 = Some r ->
          error_status r = true \/ ET_fromstring E (content r) = None
          \/ (exists root, ET_fromstring E (content r) = Some root
                           /\ existsb no_tokens (item_titles root) = true) ->
          names = []).
Proof.
  destruct (get_recent_packages_result E w) as (w' & Hrun & Hfs).
  eexists w', _. split; [exact Hrun|]. split; [exact Hfs|].
  split; [|split].
  - intros r root -> -> -> Htok. unfold candidates_of_feed. now rewrite Htok.
  - now intros ->.
  - intros r -> [->|[->|(root & -> & Htok)]]; try reflexivity.
    + now destruct (error_status r).
    + destruct (error_status r); [reflexivity|].
      unfold candidates_of_feed. now rewrite Htok.
Qed.

Lemma feed_candidates_witness :
  exists w',
    get_recent_packages_from_rss Demo.E0 Demo.w0 = (w', Ok ["foo"; "bar"]).
Proof.
  destruct (feed_candidates Demo.E0 Demo.w0)
    as (w' & names & Hrun & _ & Hnames & _).
  exists w'.
  rewrite (Hnames (Response 200 "feed") Demo.feed eq_refl eq_refl eq_refl
             eq_refl) in Hrun.
  exact Hrun.
Defined.

(** The feed of the specification's example. *)
Example feed_foo_bar_foo :
  snd (get_recent_packages_from_rss Demo.E0 Demo.w0) = Ok ["foo"; "bar"].
Proof. reflexivity. Qed.

(** C10.  When the feed is fetched and parsed and one of its items has a
    title without any whitespace-delimited token (no text, or only white
    space), the candidate source returns the empty list, whatever names the
    earlier items gave. *)
Theorem empty_title_discards_all_names (E : env) (w : world) (r : response)
    (root item title : element) :
  server E w "https://pypi.org/rss/updates.xml" 10 = Some r ->
  error_status r = false ->
  ET_fromstring E (content r) = Some root ->
  In item (findall_descendants "item" root) ->
  find_child "title" item = Some title ->
  no_tokens (text_of title) = true ->
  exists w', get_recent_packages_from_rss E w = (w', Ok []).
Proof.
  intros Hget Hstatus Hparse Hitem Htitle Hempty.
  destruct (get_recent_packages_result E w) as (w' & Hrun & _).
  exists w'. rewrite Hrun, Hget, Hstatus, Hparse.
  unfold candidates_of_feed.
  replace (existsb no_tokens (item_titles root)) with true; [reflexivity|].
  symmetry. apply List.existsb_exists. exists (text_of title).
  split; [|exact Hempty].
  apply list_elem_of_In. apply list_elem_of_omap.
  exists item. split; [now apply list_elem_of_In|].
  now rewrite Htitle.
Qed.

Lemma empty_title_discards_all_names_witness :
  exists w', get_recent_packages_from_rss Demo.E_empty_title Demo.w0 = (w', Ok []).
Proof.
  apply (empty_title_discards_all_names Demo.E_empty_title Demo.w0
           (Response 200 "feed with empty title") Demo.feed_with_empty_title
           (Element "item" None [Element "title" None []])
           (Element "title" None []));
    try reflexivity.
  vm_compute. right. left. reflexivity.
Defined.

(** ** Traces of the commands *)

Section Only.

Context (P : event -> bool).

Lemma only_ret {A} (a : A) : only P (ret a).
Proof. intros w w' r [= <- <-]. exists []. now rewrite app_nil_r. Qed.

Lemma only_raise {A} (e : exn) : only P (@raise A e).
Proof. intros w w' r [= <- <-]. exists []. now rewrite app_nil_r. Qed.

Lemma only_lift {A} (x : res A) : only P (lift x).
Proof. intros w w' r [= <- <-]. exists []. now rewrite app_nil_r. Qed.

Lemma only_bind {A B} (c : M A) (k : A -> M B) :
  only P c -> (forall a, only P (k a)) -> only P (bind c k).
Proof.
  intros Hc Hk w w' r. unfold bind.
  destruct (c w) as [w1 [a|e]] eqn:Hrun.
  - intros Hrest. destruct (Hc _ _ _ Hrun) as (evs1 & Ht1 & Hp1).
    destruct (Hk a _ _ _ Hrest) as (evs2 & Ht2 & Hp2).
    exists (evs1 ++ evs2). rewrite Ht2, Ht1, <- app_assoc. split; [reflexivity|].
    rewrite forallb_app. now rewrite Hp1, Hp2.
  - intros [= <- <-]. exact (Hc _ _ _ Hrun).
Qed.

Lemma only_try_except {A} (c : M A) (caught : exn -> bool) (h : exn -> M A) :
  only P c -> (forall e, only P (h e)) -> only P (try_except c caught h).
Proof.
  intros Hc Hh w w' r. unfold try_except.
  destruct (c w) as [w1 [a|e]] eqn:Hrun.
  - intros [= <- <-]. exact (Hc _ _ _ Hrun).
  - destruct (caught e).
    + intros Hrest. destruct (Hc _ _ _ Hrun) as (evs1 & Ht1 & Hp1).
      destruct (Hh e _ _ _ Hrest) as (evs2 & Ht2 & Hp2).
      exists (evs1 ++ evs2). rewrite Ht2, Ht1, <- app_assoc.
      split; [reflexivity|]. rewrite forallb_app. now rewrite Hp1, Hp2.
    + intros [= <- <-]. exact (Hc _ _ _ Hrun).
Qed.

Lemma only_emit (ev : event) : P ev = true -> only P (emit ev).
Proof.
  intros Hev w w' r [= <- <-]. exists [ev]. split; [reflexivity|].
  cbn. now rewrite Hev.
Qed.

Lemma only_path_exists (path : string) : only P (path_exists path).
Proof. intros w w' r [= <- <-]. exists []. now rewrite app_nil_r. Qed.

Lemma only_raise_for_status (r : response) : only P (raise_for_status r).
Proof.
  unfold raise_for_status.
  destruct (error_status r); [apply only_raise|apply only_ret].
Qed.

Lemma only_session_get (E : env) (url : string) (timeout : Z) :
  P (EGet url timeout) = true -> only P (session_get E url timeout).
Proof.
  intros Hev w w' r. unfold session_get.
  destruct (server E w url timeout); intros [= <- <-];
    (exists [EGet url timeout]; split; [reflexivity|]; cbn; now rewrite Hev).
Qed.

Lemma only_write_file (E : env) (path data : string) :
  only P (write_file E path data).
Proof.
  intros w w' r. unfold write_file.
  destruct (disk E w path data); intros [= <- <-];
    (exists []; now rewrite app_nil_r).
Qed.

End Only.

Create HintDb only_db discriminated.

#[local] Hint Resolve only_ret only_raise only_lift only_path_exists
  only_raise_for_status only_write_file : only_db.

(** One step through a command built from the combinators. *)
Ltac only_step :=
  first
    [ apply only_bind; [|intros ?]
    | apply only_try_except; [|intros ?]
    | apply only_emit; reflexivity
    | apply only_session_get; reflexivity
    | solve [auto with only_db]
    | match goal with
      | |- only _ (if ?b then _ else _) => destruct b
      | |- only _ (match ?x with _ => _ end) => destruct x
      end ].

Lemma only_download_package (E : env) (self : PyPICrawler)
    (package_name : string) (package_info : value) :
  only quiet (download_package E self package_name package_info).
Proof. unfold download_package, fetch_artifact. repeat only_step. Qed.

Lemma only_is_updated (E : env) (package_info : value) :
  only quiet (is_updated_since_july_2025 E package_info).
Proof. unfold is_updated_since_july_2025. repeat only_step. Qed.

(** [get_package_info] sends its one request and may log a failure; what it
    raises is what [Response.json] raised outside [RequestException]. *)
Lemma get_package_info_trace (E : env) (package_name : string) (w : world) :
  exists w' result evs,
    get_package_info E package_name w = (w', result)
    /\ trace w' = trace w ++ EGet (metadata_url package_name) 10 :: evs
    /\ forallb quiet evs = true
    /\ match result with
       | Ok _ => True
       | Raise e => parser_escapes E package_name w e
       end.
Proof.
  unfold get_package_info, try_except, bind, session_get, raise_for_status,
    response_json, log, emit, ret, raise. fold (metadata_url package_name).
  assert (forall (w1 : world) (v : value) (tail : list event),
            trace w1 = (trace w ++ [EGet (metadata_url package_name) 10]) ++ tail ->
            forallb quiet tail = true ->
            exists w' result evs,
              (w1, Ok v) = (w', result)
              /\ trace w' = trace w ++ EGet (metadata_url package_name) 10 :: evs
              /\ forallb quiet evs = true
              /\ match result with
                 | Ok _ => True
                 | Raise e => parser_escapes E package_name w e
                 end) as Hdone.
  { intros w1 v tail Htrace Htail. exists w1, (Ok v), tail.
    rewrite Htrace, <- app_assoc. auto. }
  destruct (server E w (metadata_url package_name) 10) as [r|] eqn:Hget.
  - destruct (error_status r) eqn:Hstatus.
    + now apply (Hdone _ _ [ELog (MsgInfoFailed package_name HTTPError)]).
    + destruct (json_loads E (content r)) eqn:Hjson.
      * apply (Hdone _ _ []); [|reflexivity]. now rewrite app_nil_r.
      * destruct (is_RequestException (json_failure E (content r))) eqn:Hcaught.
        -- now apply (Hdone _ _ [ELog (MsgInfoFailed package_name
                                         (json_failure E (content r)))]).
        -- exists (add_event (EGet (metadata_url package_name) 10) w),
             (Raise (json_failure E (content r))), [].
           repeat split. exists r. auto.
  - now apply (Hdone _ _ [ELog (MsgInfoFailed package_name RequestException)]).
Qed.

(** ** Exceptions that escape *)

Lemma raises_only_bind {A B} (allowed : exn -> bool) (x : res A)
    (k : A -> res B) :
  raises_only allowed x -> (forall a, raises_only allowed (k a)) ->
  raises_only allowed (res_bind x k).
Proof. destruct x; cbn; auto. Qed.

Lemma seq_index_raises {A} (l : list A) (i : Z) :
  raises_only lookup_or_parse_failure (seq_index l i).
Proof.
  unfold seq_index. destruct (_ && _); [|reflexivity].
  now destruct (nth_error l _).
Qed.

Lemma getitem_raises (obj key : value) :
  raises_only lookup_or_parse_failure (getitem obj key).
Proof.
  destruct obj as [| | |s|l|d]; try reflexivity.
  - destruct key; try reflexivity;
      (apply raises_only_bind; [apply seq_index_raises|now intros]).
  - destruct key; try reflexivity; apply seq_index_raises.
  - destruct key as [| | |k| |]; try reflexivity.
    cbn. now destruct (assoc k d).
Qed.

Lemma contains_raises (key obj : value) :
  raises_only lookup_or_parse_failure (contains key obj).
Proof.
  destruct obj as [| | |s|l|d]; try reflexivity.
  - now destruct key.
  - now destruct key.
Qed.

Lemma upload_check_raises (E : env) (package_info : value) :
  raises_only lookup_or_parse_failure (upload_check E package_info).
Proof.
  unfold upload_check, first_upload_time.
  apply raises_only_bind.
  - apply raises_only_bind; [apply getitem_raises|intros info].
    apply raises_only_bind; [apply getitem_raises|intros latest_version].
    apply raises_only_bind; [apply getitem_raises|intros releases].
    apply raises_only_bind; [apply contains_raises|intros present].
    destruct present; [|exact I].
    apply raises_only_bind; [apply getitem_raises|intros release_files].
    destruct (truthy release_files); [|exact I].
    apply raises_only_bind; [apply getitem_raises|intros first].
    apply raises_only_bind; [apply getitem_raises|intros upload_time].
    exact I.
  - intros [upload_time|]; [|exact I].
    apply raises_only_bind; [|now intros].
    unfold on_or_after_cutoff.
    apply raises_only_bind; [now destruct upload_time|intros normalized].
    now destruct (fromisoformat E normalized).
Qed.

(** The only exceptions that leave the recency filter are [TypeError] and
    [AttributeError]. *)
Lemma is_updated_escapes (E : env) (package_info : value) (w w' : world)
    (e : exn) :
  is_updated_since_july_2025 E package_info w = (w', Raise e) ->
  e = TypeError \/ e = AttributeError.
Proof.
  pose proof (upload_check_raises E package_info) as Hraises.
  unfold is_updated_since_july_2025, bind, try_except, lift, log, emit, ret.
  destruct (upload_check E package_info) as [[b|]|e']; try discriminate.
  cbn in Hraises.
  destruct e'; try discriminate; cbn; intros [= _ <-]; auto.
Qed.

(** ** The orchestrator *)


Lemma pauses_app (a b : list event) : pauses (a ++ b) = pauses a ++ pauses b.
Proof.
  induction a as [|[] a IH]; cbn; rewrite ?IH; reflexivity.
Qed.


Lemma quiet_observations (evs : list event) :
  forallb quiet evs = true ->
  processed evs = [] /\ pauses evs = [] /\ requests 10 evs = [].
Proof.
  induction evs as [|ev evs IH]; [easy|].
  cbn [forallb]. intros [Hev Hevs]%andb_prop.
  destruct (IH Hevs) as (Hp & Hs & Hr).
  destruct ev as [url t| |[]]; try discriminate; cbn; auto.
  cbn in Hev. apply negb_true_iff in Hev. now rewrite Hev.
Qed.

Section Orchestrator.

Variable E : env.
Variable self : PyPICrawler.

(** The iteration with its binds and [continue]s spelled out. *)
Lemma crawl_step_unfold (total i : nat) (package_name : string) (count : nat)
    (w : world) :
  crawl_step E self total i package_name count w
  = match get_package_info E package_name
            (add_event (ELog (MsgProgress i total package_name)) w) with
    | (w1, Ok package_info) =>
        if truthy package_info then
          match is_updated_since_july_2025 E package_info w1 with
          | (w2, Ok recent) =>
              if recent then
                match download_package E self package_name package_info w2 with
                | (w3, Ok downloaded) =>
                    (add_event (ESleep 1) w3,
                     Ok (if downloaded then S count else count))
                | (w3, Raise e) => (w3, Raise e)
                end
              else (add_event (ELog (MsgTooOld package_name)) w2, Ok count)
          | (w2, Raise e) => (w2, Raise e)
          end
        else (w1, Ok count)
    | (w1, Raise e) => (w1, Raise e)
    end.
Proof.
  unfold crawl_step, bind, log, sleep, emit, ret.
  destruct (get_package_info E package_name _) as [w1 [package_info|e]];
    [|reflexivity].
  destruct (truthy package_info); [|reflexivity]. cbn [negb].
  now destruct (is_updated_since_july_2025 E package_info w1) as [w2 [[]|e]].
Qed.

(** The events of one iteration: the progress message, the metadata
    request, events of the three steps, and the pause exactly when the
    download was attempted.  The iteration raises exactly when the metadata
    fetch or the recency filter does. *)
Lemma crawl_step_trace (total i : nat) (package_name : string) (count : nat)
    (w : world) :
  let progress := ELog (MsgProgress i total package_name) in
  let o := outcome_of E self package_name (add_event progress w) in
  exists evs,
    forallb quiet evs = true
    /\ trace (fst (crawl_step E self total i package_name count w))
       = trace w ++ progress :: EGet (metadata_url package_name) 10 :: evs
           ++ (if download_attempted o then [ESleep 1] else [])
    /\ match snd (crawl_step E self total i package_name count w) with
       | Ok _ => match o with Aborted _ => False | _ => True end
       | Raise e => o = Aborted e
       end.
Proof.
  intros progress o. subst o.
  rewrite crawl_step_unfold. unfold outcome_of. fold progress.
  destruct (get_package_info_trace E package_name (add_event progress w))
    as (w1 & result & evs1 & Hget & Ht1 & Hq1 & _).
  rewrite Hget.
  assert (trace w1 = trace w ++ progress
                       :: EGet (metadata_url package_name) 10 :: evs1) as Ht1'.
  { rewrite Ht1. unfold add_event. cbn [trace]. now rewrite <- app_assoc. }
  destruct result as [package_info|e].
  2:{ exists evs1. cbn [fst snd download_attempted]. now rewrite app_nil_r. }
  destruct (truthy package_info); cbn [negb].
  2:{ exists evs1. cbn [fst snd download_attempted]. now rewrite app_nil_r. }
  destruct (is_updated_since_july_2025 E package_info w1) as [w2 [recent|e]]
    eqn:Hfilter.
  2:{ destruct (only_is_updated _ _ _ _ _ Hfilter) as (evs2 & Ht2 & Hq2).
      exists (evs1 ++ evs2). cbn [fst snd download_attempted].
      rewrite forallb_app, Hq1, Hq2, Ht2, Ht1', app_nil_r, <- app_assoc.
      repeat split. }
  destruct (only_is_updated _ _ _ _ _ Hfilter) as (evs2 & Ht2 & Hq2).
  destruct recent; cbn [negb].
  2:{ exists (evs1 ++ evs2 ++ [ELog (MsgTooOld package_name)]).
      unfold add_event. cbn [fst snd trace download_attempted].
      rewrite !forallb_app, Hq1, Hq2, Ht2, Ht1', app_nil_r, <- !app_assoc.
      repeat split. }
  destruct (download_package_returns E self package_name package_info w2)
    as (w3 & downloaded & Hdl).
  destruct (only_download_package _ _ _ _ _ _ _ Hdl) as (evs3 & Ht3 & Hq3).
  rewrite Hdl.
  exists (evs1 ++ evs2 ++ evs3).
  unfold add_event. cbn [fst snd trace].
  rewrite !forallb_app, Hq1, Hq2, Hq3, Ht3, Ht2, Ht1'.
  destruct downloaded; cbn [download_attempted];
    rewrite <- !app_assoc; repeat split.
Qed.


End Orchestrator.

(** C3, as stated, fails: with the candidates [a] and [b] and a server that
    cannot be reached, the metadata of [a] is absent, the run goes on to [b]
    and completes, and no pause was made at all. *)
Lemma no_pause_after_absent_metadata :
  snd (crawl_and_download Demo.E_down Demo.crawler (Some ["a"; "b"]) Demo.w0)
  = Ok tt
  /\ processed
       (trace (fst (crawl_and_download Demo.E_down Demo.crawler
                      (Some ["a"; "b"]) Demo.w0)))
     = ["a"; "b"]
  /\ outcome_of Demo.E_down Demo.crawler "a"
       (add_event (ELog (MsgProgress 1 2 "a"))
          (add_event (ELog (MsgStart 2)) Demo.w0))
     = MetadataAbsent
  /\ pauses
       (trace (fst (crawl_and_download Demo.E_down Demo.crawler
                      (Some ["a"; "b"]) Demo.w0)))
     = []
  /\ paced None
       (trace (fst (crawl_and_download Demo.E_down Demo.crawler
                      (Some ["a"; "b"]) Demo.w0)))
     = false.
Proof. repeat split; vm_compute; reflexivity. Qed.

(** The same happens when the recency filter rejects a candidate. *)
Example no_pause_after_rejection :
  outcome_of Demo.E0 Demo.crawler "old"
    (add_event (ELog (MsgProgress 1 2 "old"))
       (add_event (ELog (MsgStart 2)) Demo.w0))
  = FilterRejected
  /\ trace (fst (crawl_and_download Demo.E0 Demo.crawler
                   (Some ["old"; "demo"]) Demo.w0))
     = [ELog (MsgStart 2);
        ELog (MsgProgress 1 2 "old");
        EGet "https://pypi.org/pypi/old/json" 10;
        ELog (MsgTooOld "old");
        ELog (MsgProgress 2 2 "demo");
        EGet "https://pypi.org/pypi/demo/json" 10;
        ELog (MsgDownloading "demo-2.0.tar.gz");
        EGet "https://files.example/demo-2.0.tar.gz" 30;
        ELog (MsgDownloaded "demo-2.0.tar.gz");
        ESleep 1;
        ELog (MsgSummary 1)].
Proof. split; vm_compute; reflexivity. Qed.

(** C3, amended.  An iteration that completes pauses for one second, as its
    last action, when the download was attempted, whether it succeeded or
    failed, and this also after the last candidate; it makes no pause when
    the metadata is absent or the recency filter rejects the package. *)
Theorem pause_follows_download_attempt (E : env) (self : PyPICrawler)
    (total i : nat) (package_name : string) (count count' : nat)
    (w w' : world) :
  crawl_step E self total i package_name count w = (w', Ok count') ->
  match outcome_of E self package_name
          (add_event (ELog (MsgProgress i total package_name)) w) with
  | DownloadSucceeded | DownloadFailed =>
      exists evs, trace w' = trace w ++ evs ++ [ESleep 1] /\ pauses evs = []
  | MetadataAbsent | FilterRejected =>
      exists evs, trace w' = trace w ++ evs /\ pauses evs = []
  | Aborted _ => False
  end.
Proof.
  intros Hrun.
  pose proof (crawl_step_trace E self total i package_name count w) as Hstep.
  cbn zeta in Hstep. destruct Hstep as (evs & Hq & Ht & Hres).
  rewrite Hrun in Ht, Hres. cbn [fst snd] in Ht, Hres.
  destruct (quiet_observations _ Hq) as (_ & Hs & _).
  destruct (outcome_of E self package_name _); cbn [download_attempted] in Ht;
    try exact Hres.
  - eexists. split; [rewrite Ht, app_nil_r; reflexivity|]. exact Hs.
  - eexists. split; [rewrite Ht, app_nil_r; reflexivity|]. exact Hs.
  - exists (ELog (MsgProgress i total package_name)
              :: EGet (metadata_url package_name) 10 :: evs).
    split; [rewrite Ht; reflexivity|]. exact Hs.
  - exists (ELog (MsgProgress i total package_name)
              :: EGet (metadata_url package_name) 10 :: evs).
    split; [rewrite Ht; reflexivity|]. exact Hs.
Qed.

Lemma pause_follows_download_attempt_witness :
  exists evs,
    trace (fst (crawl_step Demo.E0 Demo.crawler 1 1 "demo" 0 Demo.w0))
    = trace Demo.w0 ++ evs ++ [ESleep 1]
    /\ pauses evs = [].
Proof.
  exact (pause_follows_download_attempt Demo.E0 Demo.crawler 1 1 "demo" 0 1
           Demo.w0 _ eq_refl).
Defined.

Lemma dedup_keep_first_NoDup (l : list string) : NoDup (dedup_keep_first l).
Proof.
  induction l as [|x l IH]; cbn [dedup_keep_first]; [constructor|].
  constructor.
  - rewrite list_elem_of_In, List.filter_In. intros [_ Hx].
    now rewrite String.eqb_refl in Hx.
  - apply NoDup_ListNoDup, List.NoDup_filter. now apply NoDup_ListNoDup.
Qed.

Lemma candidates_of_feed_NoDup (root : element) : NoDup (candidates_of_feed root).
Proof.
  unfold candidates_of_feed.
  destruct (existsb no_tokens (item_titles root)); [constructor|].
  eapply sublist_NoDup; [apply dedup_keep_first_NoDup|apply sublist_take].
Qed.

Lemma candidates_of_feed_length (root : element) :
  (length (candidates_of_feed root) <= 100)%nat.
Proof.
  unfold candidates_of_feed.
  destruct (existsb no_tokens (item_titles root)); cbn [length]; [lia|].
  rewrite length_take. lia.
Qed.






(** ** Resilience of the run *)

Section Resilience.

Variable E : env.
Variable self : PyPICrawler.

Lemma crawl_step_escapes (total i : nat) (package_name : string)
    (count : nat) (w w' : world) (e : exn) :
  crawl_step E self total i package_name count w = (w', Raise e) ->
  ends_run E e.
Proof.
  rewrite crawl_step_unfold.
  destruct (get_package_info_trace E package_name
              (add_event (ELog (MsgProgress i total package_name)) w))
    as (w1 & result & evs1 & Hget & _ & _ & Hresult).
  rewrite Hget. destruct result as [package_info|e1].
  - destruct (truthy package_info); [|discriminate].
    destruct (is_updated_since_july_2025 E package_info w1) as [w2 [recent|e2]]
      eqn:Hfilter.
    + destruct recent; [|discriminate].
      destruct (download_package_returns E self package_name package_info w2)
        as (w3 & downloaded & ->).
      discriminate.
    + intros [= _ <-].
      destruct (is_updated_escapes E _ _ _ _ Hfilter) as [->| ->];
        unfold ends_run; auto.
  - intros [= _ <-]. right. right. eauto.
Qed.

Lemma crawl_loop_escapes (total : nat) (package_list : list string) :
  forall (i count : nat) (w w' : world) (e : exn),
    crawl_loop E self total i package_list count w = (w', Raise e) ->
    ends_run E e.
Proof.
  induction package_list as [|package_name rest IH]; intros i count w w' e.
  - discriminate.
  - cbn [crawl_loop]. unfold bind.
    destruct (crawl_step E self total i package_name count w) as [w1 [c1|e1]]
      eqn:Hstep.
    + apply IH.
    + intros [= _ <-]. eapply crawl_step_escapes, Hstep.
Qed.

(** Whatever leaves [crawl_and_download] is a [TypeError] or an
    [AttributeError] raised by the recency filter, or what [Response.json]
    raised outside [RequestException] in the metadata fetch: the download
    and the candidate source catch all they raise. *)
Lemma crawl_and_download_escapes (package_list : option (list string))
    (w w' : world) (e : exn) :
  crawl_and_download E self package_list w = (w', Raise e) ->
  ends_run E e.
Proof.
  unfold crawl_and_download. unfold bind at 1.
  assert (exists w1 l,
            (match package_list with
             | None => get_recent_packages_from_rss E
             | Some l => ret l
             end) w = (w1, Ok l)) as (w1 & l & ->).
  { destruct package_list as [l|]; [now exists w, l|].
    destruct (get_recent_packages_result E w) as (w1 & Hfeed & _). eauto. }
  destruct l as [|x l]; [discriminate|].
  unfold bind, log, emit.
  destruct (crawl_loop E self _ 1 (x :: l) 0 _) as [w2 [count|e']] eqn:Hloop;
    [discriminate|].
  intros [= _ <-]. eapply crawl_loop_escapes, Hloop.
Qed.

Lemma get_package_info_value (package_name : string) (w w' : world)
    (package_info : value) :
  get_package_info E package_name w = (w', Ok package_info) ->
  package_info = VNone
  \/ exists r,
       server E w (metadata_url package_name) 10 = Some r
       /\ error_status r = false
       /\ json_loads E (content r) = Some package_info.
Proof.
  unfold get_package_info, try_except, bind, session_get, raise_for_status,
    response_json, log, emit, ret, raise. fold (metadata_url package_name).
  destruct (server E w _ 10) as [r|]; [|intros [= _ <-]; now left].
  destruct (error_status r) eqn:Hstatus; [intros [= _ <-]; now left|].
  destruct (json_loads E (content r)) eqn:Hjson.
  - intros [= _ <-]. eauto.
  - destruct (is_RequestException _); [|discriminate].
    intros [= _ <-]. now left.
Qed.

Lemma get_package_info_returns (package_name : string) (w : world) :
  typed_metadata_only E ->
  exists w' package_info,
    get_package_info E package_name w = (w', Ok package_info).
Proof.
  intros Htyped.
  destruct (get_package_info_trace E package_name w)
    as (w' & [package_info|e] & _ & Hget & _ & _ & Hresult); [eauto|].
  destruct Hresult as (r & Hanswer & Hstatus & Hjson & He & Hescapes).
  specialize (Htyped _ _ _ Hanswer Hstatus).
  rewrite Hjson in Htyped. rewrite Htyped in He. now subst e.
Qed.

Lemma crawl_loop_completes (total : nat) (package_list : list string) :
  typed_metadata_only E ->
  forall (i count : nat) (w : world),
    exists w' count', crawl_loop E self total i package_list count w = (w', Ok count').
Proof.
  intros Htyped.
  induction package_list as [|package_name rest IH]; intros i count w.
  - now exists w, count.
  - cbn [crawl_loop]. unfold bind.
    assert (exists w1 c1,
              crawl_step E self total i package_name count w = (w1, Ok c1))
      as (w1 & c1 & ->); [|apply IH].
    rewrite crawl_step_unfold.
    destruct (get_package_info_returns package_name
                (add_event (ELog (MsgProgress i total package_name)) w) Htyped)
      as (w1 & package_info & Hget).
    rewrite Hget.
    destruct (truthy package_info) eqn:Htruthy; [|eauto].
    destruct (get_package_info_value _ _ _ _ Hget)
      as [->|(r & Hanswer & Hstatus & Hjson)]; [discriminate|].
    pose proof (Htyped _ _ _ Hanswer Hstatus) as Hmeta.
    rewrite Hjson in Hmeta.
    destruct (recency_filter_on_typed_metadata E package_info w1 Hmeta)
      as (w2 & -> & _).
    destruct (recent_by_spec E package_info); [|eauto].
    destruct (download_package_returns E self package_name package_info w2)
      as (w3 & downloaded & ->).
    eauto.
Qed.

(** When the bodies the server sends in answer to the metadata requests are
    metadata with the types of the data model or are not JSON, no exception
    leaves the run, and a run over a list that is not empty ends with the
    summary message. *)
Lemma run_completes_on_typed_metadata (package_list : option (list string))
    (w : world) :
  typed_metadata_only E ->
  exists w',
    crawl_and_download E self package_list w = (w', Ok tt)
    /\ (candidate_list E package_list w <> [] ->
        exists count, last (trace w') = Some (ELog (MsgSummary count))).
Proof.
  intros Htyped.
  unfold crawl_and_download. unfold bind at 1.
  assert (exists w1,
            (match package_list with
             | None => get_recent_packages_from_rss E
             | Some l => ret l
             end) w = (w1, Ok (candidate_list E package_list w))) as (w1 & ->).
  { destruct package_list as [l|]; [now exists w|].
    destruct (get_recent_packages_result E w) as (w1 & Hfeed & _).
    exists w1. cbn [candidate_list]. now rewrite Hfeed. }
  destruct (candidate_list E package_list w) as [|x l].
  - eexists. split; [reflexivity|]. now intros [].
  - unfold bind, log, emit.
    destruct (crawl_loop_completes (length (x :: l)) (x :: l) Htyped 1%nat 0%nat
                (add_event (ELog (MsgStart (length (x :: l)))) w1))
      as (w2 & count & ->).
    eexists. split; [reflexivity|]. intros _. exists count.
    unfold add_event. cbn [trace]. apply last_snoc.
Qed.

End Resilience.

(** C4.  An exception raised while a candidate is processed can end the
    run: the metadata of [p] has [null] for the upload time of its first
    file, the recency filter raises [AttributeError], no handler of
    [crawl_and_download] catches it, the candidate [demo] that follows is
    never processed and no summary is logged. *)
Theorem run_aborted_by_null_upload_time :
  crawl_and_download Demo.E0 Demo.crawler (Some ["p"; "demo"]) Demo.w0
  = (World ∅ [ELog (MsgStart 2);
              ELog (MsgProgress 1 2 "p");
              EGet "https://pypi.org/pypi/p/json" 10],
     Raise AttributeError).
Proof. vm_compute. reflexivity. Qed.

(** ** The two scenarios of the specification *)

(** Package [demo], uploaded on 2025-07-15: the filter accepts it, the
    source archive is written to the output directory and the summary
    counts one download. *)
Example demo_is_downloaded :
  crawl_and_download Demo.E0 Demo.crawler (Some ["demo"]) Demo.w0
  = (World {["pypi_packages_2025_july/demo-2.0.tar.gz" := File "demo sources"]}
       [ELog (MsgStart 1);
        ELog (MsgProgress 1 1 "demo");
        EGet "https://pypi.org/pypi/demo/json" 10;
        ELog (MsgDownloading "demo-2.0.tar.gz");
        EGet "https://files.example/demo-2.0.tar.gz" 30;
        ELog (MsgDownloaded "demo-2.0.tar.gz");
        ESleep 1;
        ELog (MsgSummary 1)],
     Ok tt).
Proof. vm_compute. reflexivity. Qed.

(** Package [old], uploaded on 2024-01-01: the filter rejects it, nothing is
    downloaded and no error is logged. *)
Example old_is_skipped :
  crawl_and_download Demo.E0 Demo.crawler (Some ["old"]) Demo.w0
  = (World ∅
       [ELog (MsgStart 1);
        ELog (MsgProgress 1 1 "old");
        EGet "https://pypi.org/pypi/old/json" 10;
        ELog (MsgTooOld "old");
        ELog (MsgSummary 0)],
     Ok tt).
Proof. vm_compute. reflexivity. Qed.

(** * Further properties of the code *)

(** ** The metadata fetch *)

(** X1.  [get_package_info] leaves the disk alone and sends exactly one
    request, to the metadata URL with the timeout 10.  It returns [None]
    when the request fails, when the status is 4xx or 5xx and when
    [Response.json] raises a [RequestException] (the body is not JSON), and
    the parsed body when there is one.  Any other exception of
    [Response.json] ([ValueError] for an integer literal over the digit
    limit, [RecursionError] for nesting too deep) is not caught: the call
    raises it. *)
Theorem metadata_fetch_result (E : env) (package_name : string) (w : world) :
  exists w',
    get_package_info E package_name w
    = (w', match server E w (metadata_url package_name) 10 with
           | Some r =>
               if error_status r then Ok VNone
               else
                 match json_loads E (content r) with
                 | Some package_info => Ok package_info
                 | None =>
                     if is_RequestException (json_failure E (content r))
                     then Ok VNone
                     else Raise (json_failure E (content r))
                 end
           | None => Ok VNone
           end)
    /\ fs w' = fs w
    /\ List.filter is_get (trace w')
       = List.filter is_get (trace w) ++ [EGet (metadata_url package_name) 10].
Proof.
  unfold get_package_info, try_except, bind, session_get, raise_for_status,
    response_json, log, emit, ret, raise, add_event.
  fold (metadata_url package_name).
  destruct (server E w (metadata_url package_name) 10) as [r|].
  - destruct (error_status r).
    + eexists. split; [reflexivity|]. split; [reflexivity|].
      cbn [trace is_RequestException]. now rewrite !List.filter_app, app_nil_r.
    + destruct (json_loads E (content r)).
      * eexists. split; [reflexivity|]. split; [reflexivity|].
        cbn [trace]. now rewrite !List.filter_app.
      * destruct (is_RequestException (json_failure E (content r))).
        -- eexists. split; [reflexivity|]. split; [reflexivity|].
           cbn [trace]. now rewrite !List.filter_app, app_nil_r.
        -- eexists. split; [reflexivity|]. split; [reflexivity|].
           cbn [trace]. now rewrite !List.filter_app.
  - eexists. split; [reflexivity|]. split; [reflexivity|].
    cbn [trace is_RequestException]. now rewrite !List.filter_app, app_nil_r.
Qed.

(** A body with an integer literal over the digit limit: the metadata fetch
    raises the [ValueError] of the parser, and the run ends with it before
    the second candidate is looked at. *)
Example long_number_ends_the_run :
  get_package_info Cases.E_long_number "a" Demo.w0
  = (World ∅ [EGet "https://pypi.org/pypi/a/json" 10], Raise ValueError)
  /\ crawl_and_download Cases.E_long_number Demo.crawler (Some ["a"; "b"])
       Demo.w0
     = (World ∅ [ELog (MsgStart 2);
                 ELog (MsgProgress 1 2 "a");
                 EGet "https://pypi.org/pypi/a/json" 10],
        Raise ValueError).
Proof. split; vm_compute; reflexivity. Qed.

(** ** The recency filter *)

(** X2.  Whatever the document, the recency filter touches neither the disk
    nor the network: it adds nothing to the trace, or, when one of the three
    exceptions of its handler was raised, the one warning, and then its
    answer is false. *)
Theorem filter_only_logs (E : env) (package_info : value) (w : world) :
  fs (fst (is_updated_since_july_2025 E package_info w)) = fs w
  /\ (trace (fst (is_updated_since_july_2025 E package_info w)) = trace w
      \/ exists e,
           is_lookup_or_parse_error e = true
           /\ trace (fst (is_updated_since_july_2025 E package_info w))
              = trace w ++ [ELog (MsgParseTimeFailed e)]
           /\ snd (is_updated_since_july_2025 E package_info w) = Ok false).
Proof.
  unfold is_updated_since_july_2025, bind, try_except, lift, log, emit, ret.
  destruct (upload_check E package_info) as [[b|]|e]; cbn [fst snd];
    try (split; [reflexivity|now left]).
  destruct (is_lookup_or_parse_error e) eqn:He; cbn [fst snd].
  - split; [reflexivity|]. right. now exists e.
  - split; [reflexivity|now left].
Qed.

(** The lookups of the filter in a document, whatever its other keys, whose
    [info] has a string for [version] and whose [releases] is an object:
    they go on from what [releases] has for the version. *)
Lemma first_upload_time_of_document (package_info info : value)
    (version : string) (releases : list (string * value)) :
  field "info" package_info = Some info ->
  field "version" info = Some (VStr version) ->
  field "releases" package_info = Some (VDict releases) ->
  first_upload_time package_info
  = match assoc version releases with
    | Some release_files =>
        if truthy release_files then
          first <- getitem release_files (VInt 0) ;;
          upload_time <- getitem first (VStr "upload_time_iso_8601") ;;
          Ok (Some upload_time)
        else Ok None
    | None => Ok None
    end.
Proof.
  intros Hinfo Hversion Hreleases. unfold first_upload_time.
  rewrite (getitem_field _ _ _ Hinfo). cbn [res_bind].
  rewrite (getitem_field _ _ _ Hversion). cbn [res_bind].
  rewrite (getitem_field _ _ _ Hreleases). cbn [res_bind contains getitem].
  now destruct (assoc version releases).
Qed.

(** X3.  Only the first file of the current version counts: two documents,
    whatever their other keys, versions and releases, whose current versions
    list the same first file get the same answer, even when one of the later
    files is newer. *)
Theorem later_files_are_not_read (E : env)
    (package_info package_info' info info' : value)
    (version version' : string) (releases releases' : list (string * value))
    (first : value) (rest rest' : list value) (w : world) :
  field "info" package_info = Some info ->
  field "version" info = Some (VStr version) ->
  field "releases" package_info = Some (VDict releases) ->
  assoc version releases = Some (VList (first :: rest)) ->
  field "info" package_info' = Some info' ->
  field "version" info' = Some (VStr version') ->
  field "releases" package_info' = Some (VDict releases') ->
  assoc version' releases' = Some (VList (first :: rest')) ->
  is_updated_since_july_2025 E package_info w
  = is_updated_since_july_2025 E package_info' w.
Proof.
  intros Hinfo Hversion Hreleases Hfiles Hinfo' Hversion' Hreleases' Hfiles'.
  unfold is_updated_since_july_2025, upload_check.
  rewrite (first_upload_time_of_document _ _ _ _ Hinfo Hversion Hreleases).
  rewrite (first_upload_time_of_document _ _ _ _ Hinfo' Hversion' Hreleases').
  rewrite Hfiles, Hfiles'. cbn [truthy getitem].
  now rewrite !seq_index_head.
Qed.

(** The document with its other keys, a second version and an archive of
    2024 after the wheel, and the document that only has the wheel. *)
Lemma later_files_are_not_read_witness :
  is_updated_since_july_2025 Demo.E0 Cases.full_info Demo.w0
  = is_updated_since_july_2025 Demo.E0
      (Demo.metadata "2.0" [Cases.wheel_record]) Demo.w0.
Proof.
  apply (later_files_are_not_read Demo.E0 Cases.full_info
           (Demo.metadata "2.0" [Cases.wheel_record])
           (VDict [("author", VStr "someone"); ("name", VStr "demo");
                   ("version", VStr "2.0")])
           (VDict [("version", VStr "2.0")])
           "2.0" "2.0"
           [("1.0", VList []);
            ("2.0",
             VList [Cases.wheel_record;
                    Demo.file_record "demo-2.0.tar.gz"
                      "https://files.example/demo-2.0.tar.gz"
                      "2024-01-01T00:00:00Z"])]
           [("2.0", VList [Cases.wheel_record])]
           Cases.wheel_record
           [Demo.file_record "demo-2.0.tar.gz"
              "https://files.example/demo-2.0.tar.gz" "2024-01-01T00:00:00Z"]
           [] Demo.w0);
    reflexivity.
Defined.

(** X4.  In a document, whatever its other keys, whose [info] has a string
    for [version] and whose [releases] is an object: when the current
    version is no key of the releases, or has no file, the filter answers
    false and logs nothing; when the first file has no upload time, or one
    that does not parse, it answers false and logs the warning with
    [KeyError], respectively [ValueError]. *)
Theorem rejection_with_and_without_warning (E : env)
    (package_info info : value) (version : string)
    (releases : list (string * value)) (w : world) :
  field "info" package_info = Some info ->
  field "version" info = Some (VStr version) ->
  field "releases" package_info = Some (VDict releases) ->
  (assoc version releases = None ->
   is_updated_since_july_2025 E package_info w = (w, Ok false))
  /\ (assoc version releases = Some (VList []) ->
      is_updated_since_july_2025 E package_info w = (w, Ok false))
  /\ (forall record rest,
        assoc version releases = Some (VList (VDict record :: rest)) ->
        assoc "upload_time_iso_8601" record = None ->
        is_updated_since_july_2025 E package_info w
        = (add_event (ELog (MsgParseTimeFailed KeyError)) w, Ok false))
  /\ (forall record rest upload_time,
        assoc version releases = Some (VList (VDict record :: rest)) ->
        assoc "upload_time_iso_8601" record = Some (VStr upload_time) ->
        fromisoformat E (str_replace "Z" "+00:00" upload_time) = None ->
        is_updated_since_july_2025 E package_info w
        = (add_event (ELog (MsgParseTimeFailed ValueError)) w, Ok false)).
Proof.
  intros Hinfo Hversion Hreleases.
  unfold is_updated_since_july_2025, upload_check.
  rewrite (first_upload_time_of_document _ _ _ _ Hinfo Hversion Hreleases).
  unfold on_or_after_cutoff, bind, try_except, lift, log, emit, ret.
  repeat split.
  - now intros ->.
  - intros ->. reflexivity.
  - intros record rest -> Htime. cbn [res_bind truthy getitem].
    rewrite seq_index_head. cbn [res_bind getitem]. now rewrite Htime.
  - intros record rest upload_time -> Htime Hparse.
    cbn [res_bind truthy getitem].
    rewrite seq_index_head. cbn [res_bind getitem]. rewrite Htime.
    cbn [res_bind replace]. now rewrite Hparse.
Qed.

(** The current version 3.0 of the document has no file. *)
Lemma rejection_with_and_without_warning_witness :
  is_updated_since_july_2025 Demo.E0 Cases.empty_release_info Demo.w0
  = (Demo.w0, Ok false).
Proof.
  apply (rejection_with_and_without_warning Demo.E0 Cases.empty_release_info
           (VDict [("name", VStr "gone"); ("version", VStr "3.0")])
           "3.0"
           [("2.0", VList [Cases.wheel_record]); ("3.0", VList [])]
           Demo.w0);
    reflexivity.
Defined.

(** X5.  The comparison with the cutoff reads the date as written and never
    converts the offset: for an upload time that parses to a date with
    fields in their ranges, the answer is true exactly when that date is in
    July 2025 or later, whatever its UTC offset. *)
Theorem cutoff_compares_the_date_as_written (E : env) (upload_time : string)
    (d : datetime) :
  fromisoformat E (str_replace "Z" "+00:00" upload_time) = Some d ->
  1 <= month d -> 1 <= day d ->
  0 <= hour d -> 0 <= minute d -> 0 <= second d -> 0 <= microsecond d ->
  on_or_after_cutoff E (VStr upload_time) = Ok true
  <-> 2025 < year d \/ (year d = 2025 /\ 7 <= month d).
Proof.
  intros Hparse Hm Hd Hh Hmi Hs Hu.
  unfold on_or_after_cutoff. cbn [replace res_bind]. rewrite Hparse.
  rewrite <- (on_or_after_cutoff_date d Hm Hd Hh Hmi Hs Hu).
  split; [now intros [= ->]|now intros ->].
Qed.

(** Midnight of 1 July in a zone fourteen hours ahead of UTC is still 30
    June in UTC, and is accepted. *)
Lemma cutoff_compares_the_date_as_written_witness :
  on_or_after_cutoff Demo.E0 (VStr "2025-07-01T00:00:00+14:00") = Ok true
  <-> 2025 < 2025 \/ (2025 = 2025 /\ 7 <= 7).
Proof.
  apply (cutoff_compares_the_date_as_written Demo.E0
           "2025-07-01T00:00:00+14:00"
           (Datetime 2025 7 1 0 0 0 0 (Some 50400000000)) eq_refl);
    cbn; lia.
Defined.

(** ** The downloader *)

(** A run of [download_package] ends at the selection with one message and
    false, or goes on with the selected record. *)
Lemma download_package_cases (E : env) (self : PyPICrawler)
    (package_name : string) (package_info : value) (w : world) :
  (exists m,
     download_package E self package_name package_info w
     = (add_event (ELog m) w, Ok false))
  \/ exists selected download_url filename,
       tar_gz_file package_info = Ok selected
       /\ getitem selected (VStr "url") = Ok download_url
       /\ getitem selected (VStr "filename") = Ok (VStr filename)
       /\ download_package E self package_name package_info w
          = download_selected E self package_name download_url filename w.
Proof.
  destruct (tar_gz_file package_info) as [selected|e] eqn:Hsel.
  2:{ left. apply download_package_not_selected. intros; congruence. }
  destruct (getitem selected (VStr "url")) as [download_url|e] eqn:Hurl.
  2:{ left. apply download_package_not_selected. intros; congruence. }
  destruct (getitem selected (VStr "filename")) as [[| | |filename| |]|e]
    eqn:Hname;
    try (left; apply download_package_not_selected; intros; congruence).
  right. exists selected, download_url, filename.
  repeat split; try assumption.
  now apply (download_package_selected E self _ _ selected).
Qed.

Lemma fetch_artifact_cases (E : env) (download_url : value) (w : world) :
  (exists e, fetch_artifact E download_url w = (w, Raise e))
  \/ exists url,
       download_url = VStr url
       /\ fetch_artifact E download_url w
          = (add_event (EGet url 30) w,
             match server E w url 30 with
             | Some r => Ok r
             | None => Raise RequestException
             end).
Proof.
  destruct download_url as [| | |url| |];
    try (left; eexists; reflexivity).
  right. exists url. split; [reflexivity|].
  unfold fetch_artifact, session_get. now destruct (server E w url 30).
Qed.

(** What a run of [download_package] does to the disk. *)
Lemma download_package_disk (E : env) (self : PyPICrawler)
    (package_name : string) (package_info : value) (w : world) :
  fs (fst (download_package E self package_name package_info w)) = fs w
  \/ exists path data,
       fs w !! path = None
       /\ fs (fst (download_package E self package_name package_info w))
          = <[path := File data]> (fs w).
Proof.
  destruct (download_package_cases E self package_name package_info w)
    as [[m ->]|(selected & download_url & filename & _ & _ & _ & ->)];
    [now left|].
  unfold download_selected.
  destruct (fs w !! os_path_join (download_dir self) filename) eqn:Hpath;
    [now left|].
  destruct (fetch_artifact E download_url _) as [w2 [r|e]] eqn:Hfetch;
    apply fetch_artifact_fs in Hfetch; cbn [fs add_event] in Hfetch;
    [|left; exact Hfetch].
  destruct (error_status r); [left; exact Hfetch|].
  destruct (disk E w2 _ _) as [|written|]; [left; exact Hfetch| |];
    right; eexists _, _; (split; [exact Hpath|]);
    unfold add_event, put_file; cbn [fst fs]; now rewrite Hfetch.
Qed.

Lemma download_package_keeps_files (E : env) (self : PyPICrawler)
    (package_name : string) (package_info : value) (w : world) :
  fs w ⊆ fs (fst (download_package E self package_name package_info w)).
Proof.
  destruct (download_package_disk E self package_name package_info w)
    as [->|(path & data & Hfree & ->)]; [reflexivity|].
  now apply insert_subseteq.
Qed.

(** X6.  [download_package] never changes or removes a file that exists: it
    leaves the disk as it is or adds one file at a path that was free. *)
Theorem download_adds_at_most_one_file (E : env) (self : PyPICrawler)
    (package_name : string) (package_info : value) (w : world) :
  let w' := fst (download_package E self package_name package_info w) in
  (fs w' = fs w
   \/ exists path data,
        fs w !! path = None /\ fs w' = <[path := File data]> (fs w))
  /\ fs w ⊆ fs w'.
Proof.
  split; [apply download_package_disk|apply download_package_keeps_files].
Qed.

(** X7.  When [download_package] returns true, there is a file at the path
    [os.path.join(download_dir, filename)] for the filename of the selected
    record, a path that lies outside the output directory when the filename
    is absolute: the file was there before and the disk is unchanged, or it
    was not and now holds exactly the body of the answer to the request for
    the record's URL, whose status was no error. *)
Theorem downloaded_file_is_the_response_body (E : env) (self : PyPICrawler)
    (package_name : string) (package_info : value) (w w' : world) :
  download_package E self package_name package_info w = (w', Ok true) ->
  exists selected filename,
    tar_gz_file package_info = Ok selected
    /\ getitem selected (VStr "filename") = Ok (VStr filename)
    /\ ((is_Some (fs w !! os_path_join (download_dir self) filename)
         /\ fs w' = fs w)
        \/ (fs w !! os_path_join (download_dir self) filename = None
            /\ exists url r,
                 getitem selected (VStr "url") = Ok (VStr url)
                 /\ server E (add_event (ELog (MsgDownloading filename)) w)
                      url 30 = Some r
                 /\ error_status r = false
                 /\ fs w'
                    = <[os_path_join (download_dir self) filename
                        := File (content r)]> (fs w))).
Proof.
  intros Hrun.
  destruct (download_package_cases E self package_name package_info w)
    as [[m Hm]|(selected & download_url & filename & Hsel & Hurl & Hname & Hdl)];
    [congruence|].
  exists selected, filename. split; [exact Hsel|]. split; [exact Hname|].
  rewrite Hdl in Hrun. unfold download_selected in Hrun.
  destruct (fs w !! os_path_join (download_dir self) filename) eqn:Hpath.
  - left. injection Hrun as <-. split; [eauto|reflexivity].
  - right. split; [reflexivity|].
    destruct (fetch_artifact_cases E download_url
                (add_event (ELog (MsgDownloading filename)) w))
      as [[e He]|(url & -> & Hfetch)]; rewrite ?He, ?Hfetch in Hrun;
      [discriminate|].
    destruct (server E _ url 30) as [r|] eqn:Hserver; [|discriminate].
    destruct (error_status r) eqn:Hstatus; [discriminate|].
    destruct (disk E _ _ _); try discriminate.
    injection Hrun as <-. exists url, r. repeat split; assumption.
Qed.

Lemma downloaded_file_is_the_response_body_witness :
  exists selected filename,
    tar_gz_file Demo.demo_info = Ok selected
    /\ getitem selected (VStr "filename") = Ok (VStr filename)
    /\ ((is_Some (fs Demo.w0
                    !! os_path_join (download_dir Demo.crawler) filename)
         /\ fs (fst (download_package Demo.E0 Demo.crawler "demo"
                       Demo.demo_info Demo.w0)) = fs Demo.w0)
        \/ (fs Demo.w0 !! os_path_join (download_dir Demo.crawler) filename
            = None
            /\ exists url r,
                 getitem selected (VStr "url") = Ok (VStr url)
                 /\ server Demo.E0
                      (add_event (ELog (MsgDownloading filename)) Demo.w0)
                      url 30 = Some r
                 /\ error_status r = false
                 /\ fs (fst (download_package Demo.E0 Demo.crawler "demo"
                               Demo.demo_info Demo.w0))
                    = <[os_path_join (download_dir Demo.crawler) filename
                        := File (content r)]> (fs Demo.w0))).
Proof.
  exact (downloaded_file_is_the_response_body Demo.E0 Demo.crawler "demo"
           Demo.demo_info Demo.w0 _ eq_refl).
Defined.

(** X8.  A call of [download_package] sends at most one request, and that
    one goes to the URL of the selected record with the timeout 30. *)
Theorem download_sends_at_most_one_request (E : env) (self : PyPICrawler)
    (package_name : string) (package_info : value) (w : world) :
  exists evs,
    trace (fst (download_package E self package_name package_info w))
    = trace w ++ evs
    /\ (List.filter is_get evs = []
        \/ exists selected url,
             tar_gz_file package_info = Ok selected
             /\ getitem selected (VStr "url") = Ok (VStr url)
             /\ List.filter is_get evs = [EGet url 30]).
Proof.
  destruct (download_package_cases E self package_name package_info w)
    as [[m ->]|(selected & download_url & filename & Hsel & Hurl & _ & ->)].
  { exists [ELog m]. split; [reflexivity|now left]. }
  unfold download_selected.
  destruct (fs w !! os_path_join (download_dir self) filename).
  { exists [ELog (MsgExists filename)]. split; [reflexivity|now left]. }
  destruct (fetch_artifact_cases E download_url
              (add_event (ELog (MsgDownloading filename)) w))
    as [[e ->]|(url & -> & ->)].
  { exists [ELog (MsgDownloading filename);
             ELog (MsgDownloadFailed package_name e)].
    split; [|now left].
    unfold add_event. cbn [fst trace]. now rewrite <- app_assoc. }
  assert (forall tail : list event,
            List.filter is_get tail = [] ->
            List.filter is_get
              (ELog (MsgDownloading filename) :: EGet url 30 :: tail)
            = [EGet url 30]) as Hget.
  { intros tail Htail. cbn. now rewrite Htail. }
  destruct (server E _ url 30) as [r|].
  2:{ exists [ELog (MsgDownloading filename); EGet url 30;
              ELog (MsgDownloadFailed package_name RequestException)].
      unfold add_event. cbn [fst trace]. rewrite <- !app_assoc.
      split; [reflexivity|]. right. exists selected, url. auto. }
  destruct (error_status r).
  { exists [ELog (MsgDownloading filename); EGet url 30;
            ELog (MsgDownloadFailed package_name HTTPError)].
    unfold add_event. cbn [fst trace]. rewrite <- !app_assoc.
    split; [reflexivity|]. right. exists selected, url. auto. }
  destruct (disk E _ _ _).
  - exists [ELog (MsgDownloading filename); EGet url 30;
            ELog (MsgDownloadFailed package_name OSError)].
    unfold add_event. cbn [fst trace]. rewrite <- !app_assoc.
    split; [reflexivity|]. right. exists selected, url. auto.
  - exists [ELog (MsgDownloading filename); EGet url 30;
            ELog (MsgDownloadFailed package_name OSError)].
    unfold add_event, put_file. cbn [fst trace]. rewrite <- !app_assoc.
    split; [reflexivity|]. right. exists selected, url. auto.
  - exists [ELog (MsgDownloading filename); EGet url 30;
            ELog (MsgDownloaded filename)].
    unfold add_event, put_file. cbn [fst trace]. rewrite <- !app_assoc.
    split; [reflexivity|]. right. exists selected, url. auto.
Qed.

(** X9.  A write that fails after the file was opened leaves the bytes
    written so far under the final name: [download_package] returns false,
    and the next run finds the file, skips the download and returns true. *)
Theorem partial_file_passes_for_downloaded (E : env) (self : PyPICrawler)
    (package_name : string) (package_info selected : value)
    (url filename written : string) (r : response) (w : world) :
  tar_gz_file package_info = Ok selected ->
  getitem selected (VStr "url") = Ok (VStr url) ->
  getitem selected (VStr "filename") = Ok (VStr filename) ->
  fs w !! os_path_join (download_dir self) filename = None ->
  server E (add_event (ELog (MsgDownloading filename)) w) url 30 = Some r ->
  error_status r = false ->
  disk E (add_event (EGet url 30)
            (add_event (ELog (MsgDownloading filename)) w))
       (os_path_join (download_dir self) filename) (content r)
  = WriteFails written ->
  exists w',
    download_package E self package_name package_info w = (w', Ok false)
    /\ fs w' !! os_path_join (download_dir self) filename
       = Some (File written)
    /\ download_package E self package_name package_info w'
       = (add_event (ELog (MsgExists filename)) w', Ok true).
Proof.
  intros Hsel Hurl Hname Hfree Hserver Hstatus Hdisk.
  rewrite (download_package_selected E self _ _ _ _ _ _ Hsel Hurl Hname).
  unfold download_selected at 1.
  rewrite Hfree. unfold fetch_artifact, session_get.
  rewrite Hserver, Hstatus, Hdisk.
  eexists. split; [reflexivity|].
  assert (fs (add_event (ELog (MsgDownloadFailed package_name OSError))
                (put_file (os_path_join (download_dir self) filename)
                   (File written)
                   (add_event (EGet url 30)
                      (add_event (ELog (MsgDownloading filename)) w))))
          !! os_path_join (download_dir self) filename
          = Some (File written)) as Hthere.
  { unfold add_event, put_file. cbn [fs]. apply lookup_insert_eq. }
  split; [exact Hthere|].
  rewrite (download_package_selected E self _ _ _ _ _ _ Hsel Hurl Hname).
  unfold download_selected. now rewrite Hthere.
Qed.

Lemma partial_file_passes_for_downloaded_witness :
  exists w',
    download_package Cases.E_disk_full Demo.crawler "demo" Demo.demo_info
      Demo.w0 = (w', Ok false)
    /\ fs w' !! os_path_join (download_dir Demo.crawler) "demo-2.0.tar.gz"
       = Some (File "demo")
    /\ download_package Cases.E_disk_full Demo.crawler "demo" Demo.demo_info w'
       = (add_event (ELog (MsgExists "demo-2.0.tar.gz")) w', Ok true).
Proof.
  apply (partial_file_passes_for_downloaded Cases.E_disk_full Demo.crawler
           "demo" Demo.demo_info
           (Demo.file_record "demo-2.0.tar.gz"
              "https://files.example/demo-2.0.tar.gz" "2025-07-15T00:00:00Z")
           "https://files.example/demo-2.0.tar.gz" "demo-2.0.tar.gz" "demo"
           (Response 200 "demo sources") Demo.w0);
    reflexivity.
Defined.

(** X10.  The filename of the metadata is joined to the output directory as
    it is: when it starts with [/] the join is the filename itself, and the
    artifact is written there, outside the output directory. *)
Theorem absolute_filename_leaves_output_directory (E : env)
    (self : PyPICrawler) (package_name : string)
    (package_info selected : value) (url filename : string) (r : response)
    (w : world) :
  tar_gz_file package_info = Ok selected ->
  getitem selected (VStr "url") = Ok (VStr url) ->
  getitem selected (VStr "filename") = Ok (VStr filename) ->
  str_startswith "/" filename = true ->
  fs w !! filename = None ->
  server E (add_event (ELog (MsgDownloading filename)) w) url 30 = Some r ->
  error_status r = false ->
  disk E (add_event (EGet url 30)
            (add_event (ELog (MsgDownloading filename)) w))
       filename (content r)
  = WriteDone ->
  exists w',
    download_package E self package_name package_info w = (w', Ok true)
    /\ fs w' = <[filename := File (content r)]> (fs w).
Proof.
  intros Hsel Hurl Hname Habs Hfree Hserver Hstatus Hdisk.
  rewrite (download_package_selected E self _ _ _ _ _ _ Hsel Hurl Hname).
  unfold download_selected.
  replace (os_path_join (download_dir self) filename) with filename
    by (unfold os_path_join; now rewrite Habs).
  rewrite Hfree. unfold fetch_artifact, session_get.
  rewrite Hserver, Hstatus, Hdisk.
  eexists. split; reflexivity.
Qed.

Lemma absolute_filename_leaves_output_directory_witness :
  exists w',
    download_package Cases.E_any Demo.crawler "evil" Cases.absolute_name_info
      Demo.w0 = (w', Ok true)
    /\ fs w' = <["/tmp/evil-1.0.tar.gz" := File "payload"]> (fs Demo.w0).
Proof.
  apply (absolute_filename_leaves_output_directory Cases.E_any Demo.crawler
           "evil" Cases.absolute_name_info
           (Demo.file_record "/tmp/evil-1.0.tar.gz"
              "https://files.example/evil" "2025-08-01T00:00:00Z")
           "https://files.example/evil" "/tmp/evil-1.0.tar.gz"
           (Response 200 "payload") Demo.w0);
    reflexivity.
Defined.

(** X11.  The loops stop at the first record whose [filename] cannot be
    read: when the first file record raises on that lookup,
    [download_package] logs the exception and returns false, with no
    request and the disk unchanged, whatever archives follow. *)
Theorem unreadable_record_hides_the_rest (E : env) (self : PyPICrawler)
    (package_name : string) (package_info bad : value) (rest : list value)
    (e : exn) (w : world) :
  current_files package_info = Ok (bad :: rest) ->
  getitem bad (VStr "filename") = Raise e ->
  download_package E self package_name package_info w
  = (add_event (ELog (MsgDownloadFailed package_name e)) w, Ok false).
Proof.
  intros Hfiles Hbad.
  unfold download_package, try_except, bind, lift, tar_gz_file, select_file.
  rewrite Hfiles. cbn [res_bind first_with_suffix]. rewrite Hbad.
  reflexivity.
Qed.

Lemma unreadable_record_hides_the_rest_witness :
  download_package Demo.E0 Demo.crawler "a" Cases.hidden_archive_info Demo.w0
  = (add_event (ELog (MsgDownloadFailed "a" KeyError)) Demo.w0, Ok false).
Proof.
  apply (unreadable_record_hides_the_rest Demo.E0 Demo.crawler "a"
           Cases.hidden_archive_info
           (VDict [("url", VStr "https://files.example/a-1.0-py3-none-any.whl")])
           [Demo.file_record "a-1.0.tar.gz"
              "https://files.example/a-1.0.tar.gz" "2025-08-01T00:00:00Z"]);
    reflexivity.
Defined.

(** ** The candidate source *)

Lemma str_rev_onto_no_space (s acc : string) :
  has_no_space s = true -> has_no_space acc = true ->
  has_no_space (str_rev_onto s acc) = true.
Proof.
  revert acc. induction s as [|a s IH]; intros acc; [easy|].
  unfold has_no_space. cbn [list_ascii_of_string forallb str_rev_onto].
  intros [Ha Hs]%andb_prop Hacc. apply IH; [exact Hs|].
  unfold has_no_space. cbn [list_ascii_of_string forallb].
  now rewrite Ha.
Qed.

Lemma str_rev_onto_not_empty (s acc : string) :
  s <> "" \/ acc <> "" -> str_rev_onto s acc <> "".
Proof.
  revert acc. induction s as [|a s IH]; intros acc.
  - now intros [H|H].
  - intros _. cbn [str_rev_onto]. apply IH. now right.
Qed.

Lemma str_rev_token (cur : string) :
  cur <> "" -> has_no_space cur = true -> is_token (str_rev cur) = true.
Proof.
  intros Hne Hsp. unfold is_token, str_rev.
  rewrite (str_rev_onto_no_space cur "" Hsp eq_refl), andb_true_r.
  apply negb_true_iff, String.eqb_neq, str_rev_onto_not_empty. now left.
Qed.

(** The parts [split] returns are not empty and hold no white space. *)
Lemma split_from_tokens (s cur : string) :
  has_no_space cur = true -> forallb is_token (split_from cur s) = true.
Proof.
  revert cur. induction s as [|a s IH]; intros cur Hcur; cbn [split_from].
  - destruct (String.eqb_spec cur ""); [reflexivity|].
    cbn [forallb]. now rewrite str_rev_token.
  - destruct (is_space a) eqn:Ha.
    + destruct (String.eqb_spec cur ""); [now apply IH|].
      cbn [forallb]. rewrite str_rev_token by assumption. now apply IH.
    + apply IH. unfold has_no_space.
      cbn [list_ascii_of_string forallb]. now rewrite Ha.
Qed.

Lemma first_word_token (text : option string) :
  no_tokens text = false -> is_token (first_word text) = true.
Proof.
  destruct text as [s|]; [|discriminate].
  unfold no_tokens, first_word.
  pose proof (split_from_tokens s "" eq_refl) as Hall.
  fold (str_split s) in Hall.
  destruct (str_split s) as [|t l]; [discriminate|].
  intros _. now apply andb_prop in Hall as [Ht _].
Qed.

Lemma dedup_keep_first_In (x : string) (l : list string) :
  In x (dedup_keep_first l) <-> In x l.
Proof.
  induction l as [|y l IH]; [reflexivity|].
  cbn [dedup_keep_first In]. rewrite List.filter_In, IH.
  destruct (String.eqb_spec x y) as [->|Hne]; [tauto|].
  split; [tauto|]. intros [->|Hin]; [now left|right; now split].
Qed.

Lemma candidates_of_feed_tokens (root : element) :
  forallb is_token (candidates_of_feed root) = true.
Proof.
  unfold candidates_of_feed.
  destruct (existsb no_tokens (item_titles root)) eqn:Hall; [reflexivity|].
  apply List.forallb_forall. intros x Hx.
  apply list_elem_of_In, (subseteq_take 100), list_elem_of_In,
    dedup_keep_first_In, List.in_map_iff in Hx.
  destruct Hx as (text & <- & Hin).
  apply first_word_token.
  destruct (no_tokens text) eqn:Htext; [|reflexivity].
  rewrite <- Hall. symmetry. apply List.existsb_exists. eauto.
Qed.

(** X12.  Whatever the server sends, the names [get_recent_packages_from_rss]
    returns are pairwise distinct, at most 100, not empty and free of white
    space. *)
Theorem feed_names_are_distinct_tokens (E : env) (w : world) :
  exists w' names,
    get_recent_packages_from_rss E w = (w', Ok names)
    /\ NoDup names
    /\ (length names <= 100)%nat
    /\ forallb is_token names = true.
Proof.
  destruct (get_recent_packages_result E w) as (w' & Hrun & _).
  eexists w', _. split; [exact Hrun|].
  destruct (server E w _ 10) as [r|];
    [|repeat split; [constructor|cbn; lia]].
  destruct (error_status r); [repeat split; [constructor|cbn; lia]|].
  destruct (ET_fromstring E (content r)) as [root|];
    [|repeat split; [constructor|cbn; lia]].
  split; [apply candidates_of_feed_NoDup|].
  split; [apply candidates_of_feed_length|apply candidates_of_feed_tokens].
Qed.

(** X13.  A call of [get_recent_packages_from_rss] sends exactly one
    request, to the feed URL with the timeout 10, and logs exactly one
    message: the failure, or the number of distinct names found, which is
    counted before the cut to 100 and so can exceed the length of the list
    returned. *)
Theorem feed_request_and_message (E : env) (w : world) :
  exists m,
    trace (fst (get_recent_packages_from_rss E w))
    = trace w ++ [EGet "https://pypi.org/rss/updates.xml" 10; ELog m]
    /\ ((exists e, m = MsgRssFailed e
                   /\ snd (get_recent_packages_from_rss E w) = Ok [])
        \/ exists r root,
             server E w "https://pypi.org/rss/updates.xml" 10 = Some r
             /\ ET_fromstring E (content r) = Some root
             /\ m = MsgRssCount
                      (length (dedup_keep_first
                                 (map first_word (item_titles root))))
             /\ snd (get_recent_packages_from_rss E w)
                = Ok (take 100 (dedup_keep_first
                                  (map first_word (item_titles root))))).
Proof. apply get_recent_packages_events. Qed.

(** X14.  When the feed is fetched and parsed, every title has a token and
    there are at most 100 distinct first tokens, the names returned are
    exactly the first tokens of the titles: no package of the feed is
    lost. *)
Theorem small_feed_loses_no_package (E : env) (w : world) (r : response)
    (root : element) :
  server E w "https://pypi.org/rss/updates.xml" 10 = Some r ->
  error_status r = false ->
  ET_fromstring E (content r) = Some root ->
  existsb no_tokens (item_titles root) = false ->
  (length (dedup_keep_first (map first_word (item_titles root))) <= 100)%nat ->
  exists w' names,
    get_recent_packages_from_rss E w = (w', Ok names)
    /\ forall x, In x names <-> In x (map first_word (item_titles root)).
Proof.
  intros Hserver Hstatus Hparse Htok Hsmall.
  destruct (get_recent_packages_result E w) as (w' & Hrun & _).
  rewrite Hserver, Hstatus, Hparse in Hrun.
  eexists w', _. split; [exact Hrun|].
  intros x. unfold candidates_of_feed. rewrite Htok.
  rewrite take_ge by exact Hsmall. apply dedup_keep_first_In.
Qed.

Lemma small_feed_loses_no_package_witness :
  exists w' names,
    get_recent_packages_from_rss Demo.E0 Demo.w0 = (w', Ok names)
    /\ forall x, In x names <-> In x (map first_word (item_titles Demo.feed)).
Proof.
  apply (small_feed_loses_no_package Demo.E0 Demo.w0 (Response 200 "feed")
           Demo.feed); try reflexivity.
  vm_compute. lia.
Defined.

(** ** The orchestrator *)

Lemma get_package_info_fs (E : env) (package_name : string) (w : world) :
  fs (fst (get_package_info E package_name w)) = fs w.
Proof.
  unfold get_package_info, try_except, bind, session_get, raise_for_status,
    response_json, log, emit, ret, raise.
  destruct (server E w _ 10) as [r|]; [|reflexivity].
  destruct (error_status r); [reflexivity|].
  destruct (json_loads E (content r)); [reflexivity|].
  now destruct (is_RequestException _).
Qed.

Lemma is_updated_fs (E : env) (package_info : value) (w : world) :
  fs (fst (is_updated_since_july_2025 E package_info w)) = fs w.
Proof.
  unfold is_updated_since_july_2025, bind, try_except, lift, log, emit, ret.
  destruct (upload_check E package_info) as [[b|]|e]; try reflexivity.
  now destruct (is_lookup_or_parse_error e).
Qed.

Lemma only_feed_events (E : env) :
  only feed_event (get_recent_packages_from_rss E).
Proof. unfold get_recent_packages_from_rss, parse_feed. repeat only_step. Qed.

Lemma feed_events_observations (evs : list event) :
  forallb feed_event evs = true ->
  processed evs = [] /\ pauses evs = [] /\ progress_of evs = []
  /\ requests 30 evs = [].
Proof.
  induction evs as [|ev evs IH]; [easy|].
  cbn [forallb]. intros [Hev Hevs]%andb_prop.
  destruct (IH Hevs) as (Hp & Hs & Hn & Hr).
  destruct ev as [url t| |[]]; try discriminate; cbn; auto.
  unfold feed_event in Hev. apply andb_prop in Hev as [_ Ht].
  apply Z.eqb_eq in Ht. subst t. auto.
Qed.


Lemma quiet_progress (evs : list event) :
  forallb quiet evs = true -> progress_of evs = [].
Proof.
  induction evs as [|ev evs IH]; [easy|].
  cbn [forallb]. intros [Hev Hevs]%andb_prop.
  destruct ev as [| |[]]; try discriminate; cbn; auto.
Qed.

Lemma progress_of_app (a b : list event) :
  progress_of (a ++ b) = progress_of a ++ progress_of b.
Proof.
  induction a as [|[| |[]] a IH]; cbn; rewrite ?IH; reflexivity.
Qed.

Section Runs.

Variable E : env.
Variable self : PyPICrawler.

(** [crawl_and_download] with its binds spelled out: the candidates, then
    the message of the empty list, or the start message, the loop and the
    summary. *)
Lemma crawl_and_download_unfold (package_list : option (list string))
    (w : world) :
  exists w1 evs0,
    trace w1 = trace w ++ evs0
    /\ forallb feed_event evs0 = true
    /\ fs w1 = fs w
    /\ crawl_and_download E self package_list w
       = match candidate_list E package_list w with
         | [] => (add_event (ELog MsgNoList) w1, Ok tt)
         | x :: l =>
             match crawl_loop E self (length (x :: l)) 1 (x :: l) 0
                     (add_event (ELog (MsgStart (length (x :: l)))) w1) with
             | (w2, Ok count) => (add_event (ELog (MsgSummary count)) w2, Ok tt)
             | (w2, Raise e) => (w2, Raise e)
             end
         end.
Proof.
  assert (exists w1 evs0,
            trace w1 = trace w ++ evs0
            /\ forallb feed_event evs0 = true
            /\ fs w1 = fs w
            /\ (match package_list with
                | None => get_recent_packages_from_rss E
                | Some l => ret l
                end) w = (w1, Ok (candidate_list E package_list w)))
    as (w1 & evs0 & Ht & Hq & Hfs & Hfirst).
  { destruct package_list as [l|]; cbn [candidate_list].
    - exists w, []. now rewrite app_nil_r.
    - destruct (get_recent_packages_result E w) as (w1 & Hfeed & Hfs).
      destruct (only_feed_events E _ _ _ Hfeed) as (evs0 & Ht0 & Hq0).
      exists w1, evs0. rewrite Hfeed. auto. }
  exists w1, evs0. repeat split; try assumption.
  unfold crawl_and_download. unfold bind at 1. rewrite Hfirst.
  destruct (candidate_list E package_list w) as [|x l]; [reflexivity|].
  unfold bind, log, emit.
  now destruct (crawl_loop E self _ 1 (x :: l) 0 _) as [w2 [count|e]].
Qed.

Lemma crawl_step_fs (total i : nat) (package_name : string) (count : nat)
    (w : world) :
  fs w ⊆ fs (fst (crawl_step E self total i package_name count w)).
Proof.
  rewrite crawl_step_unfold.
  pose proof (get_package_info_fs E package_name
                (add_event (ELog (MsgProgress i total package_name)) w)) as Hg.
  destruct (get_package_info E package_name _) as [w1 [package_info|e]];
    unfold add_event in Hg; cbn [fst fs] in Hg.
  2:{ cbn [fst]. now rewrite Hg. }
  destruct (truthy package_info).
  2:{ cbn [fst]. now rewrite Hg. }
  pose proof (is_updated_fs E package_info w1) as Hu.
  destruct (is_updated_since_july_2025 E package_info w1) as [w2 [recent|e]];
    cbn [fst] in Hu.
  2:{ cbn [fst]. now rewrite Hu, Hg. }
  destruct recent.
  2:{ unfold add_event. cbn [fst fs]. now rewrite Hu, Hg. }
  pose proof (download_package_keeps_files E self package_name package_info w2)
    as Hd.
  rewrite Hu, Hg in Hd.
  now destruct (download_package E self package_name package_info w2)
    as [w3 [downloaded|e]].
Qed.

Lemma crawl_loop_fs (total : nat) (package_list : list string) :
  forall (i count : nat) (w : world),
    fs w ⊆ fs (fst (crawl_loop E self total i package_list count w)).
Proof.
  induction package_list as [|package_name rest IH]; intros i count w;
    [reflexivity|].
  cbn [crawl_loop]. unfold bind.
  pose proof (crawl_step_fs total i package_name count w) as Hstep.
  destruct (crawl_step E self total i package_name count w) as [w1 [c1|e]];
    cbn [fst] in Hstep; [|exact Hstep].
  etransitivity; [exact Hstep|apply IH].
Qed.

(** What one iteration does to the count: one more exactly when the
    download succeeded. *)
Lemma crawl_step_result (total i : nat) (package_name : string)
    (count count' : nat) (w : world) :
  snd (crawl_step E self total i package_name count w) = Ok count' ->
  count' = count
  \/ (count' = S count
      /\ download_attempted
           (outcome_of E self package_name
              (add_event (ELog (MsgProgress i total package_name)) w))
         = true).
Proof.
  rewrite crawl_step_unfold. unfold outcome_of.
  destruct (get_package_info E package_name _) as [w1 [package_info|e]];
    [|discriminate].
  destruct (truthy package_info); cbn [negb snd]; [|intros [= <-]; now left].
  destruct (is_updated_since_july_2025 E package_info w1)
    as [w2 [[]|e]]; cbn [negb snd]; try discriminate;
    [|intros [= <-]; now left].
  destruct (download_package E self package_name package_info w2)
    as [w3 [[]|e]]; cbn [snd]; try discriminate; intros [= <-]; auto.
Qed.

(** The pauses, the progress messages and the artifact requests of a loop
    that completes. *)
Lemma crawl_loop_counts (total : nat) (package_list : list string) :
  forall (i count count' : nat) (w w' : world),
    crawl_loop E self total i package_list count w = (w', Ok count') ->
    exists evs k,
      trace w' = trace w ++ evs
      /\ pauses evs = repeat 1 k
      /\ (count <= count')%nat /\ (count' - count <= k)%nat
      /\ (k <= length package_list)%nat
      /\ progress_of evs = numbered total i package_list.
Proof.
  induction package_list as [|package_name rest IH];
    intros i count count' w w'.
  - intros [= <- <-]. exists [], 0%nat. rewrite app_nil_r.
    repeat split; cbn; lia.
  - cbn [crawl_loop]. unfold bind.
    pose proof (crawl_step_trace E self total i package_name count w) as Hstep.
    cbn zeta in Hstep. destruct Hstep as (evs1 & Hq1 & Ht1 & _).
    pose proof (fun c => crawl_step_result total i package_name count c w)
      as Hres.
    destruct (crawl_step E self total i package_name count w) as [w1 [c1|e]];
      [|discriminate].
    cbn [fst snd] in Ht1, Hres. specialize (Hres c1 eq_refl).
    intros Hrest.
    destruct (IH _ _ _ _ _ Hrest) as (evs2 & k & Ht2 & Hp2 & Hle & Hk & Hlen & Hn2).
    destruct (quiet_observations _ Hq1) as (_ & Hs1 & _).
    pose proof (quiet_progress _ Hq1) as Hn1.
    eexists.
    exists (if download_attempted
                 (outcome_of E self package_name
                    (add_event (ELog (MsgProgress i total package_name)) w))
            then S k else k).
    split; [rewrite Ht2, Ht1, <- app_assoc; reflexivity|].
    rewrite !pauses_app, !progress_of_app. cbn [pauses progress_of].
    rewrite !pauses_app, !progress_of_app, Hs1, Hn1, Hp2, Hn2.
    cbn [length numbered app].
    destruct Hres as [->|[-> Hatt]].
    + destruct (download_attempted _); cbn [pauses progress_of app repeat];
        repeat split; lia.
    + rewrite Hatt. cbn [pauses progress_of app repeat].
      repeat split; lia.
Qed.

End Runs.

(** X15.  A run of [crawl_and_download], whether it completes or is ended
    by an exception, never changes or removes a file that was on the disk
    when it started. *)
Theorem run_keeps_existing_files (E : env) (self : PyPICrawler)
    (package_list : option (list string)) (w : world) :
  fs w ⊆ fs (fst (crawl_and_download E self package_list w)).
Proof.
  destruct (crawl_and_download_unfold E self package_list w)
    as (w1 & evs0 & _ & _ & Hfs & ->).
  destruct (candidate_list E package_list w) as [|x l];
    [cbn [fst add_event fs]; now rewrite Hfs|].
  pose proof (crawl_loop_fs E self (length (x :: l)) (x :: l) 1%nat 0%nat
                (add_event (ELog (MsgStart (length (x :: l)))) w1)) as Hloop.
  destruct (crawl_loop E self _ 1 (x :: l) 0 _) as [w2 [count|e]];
    cbn [fst add_event fs] in *; now rewrite <- Hfs.
Qed.

(** X16.  A run that completes on a list that is not empty ends with the
    summary message; every pause of the run lasts one second, and the count
    of the summary is at most the number of pauses, which is at most the
    number of candidates. *)
Theorem summary_count_is_bounded (E : env) (self : PyPICrawler)
    (package_list : option (list string)) (w w' : world) :
  crawl_and_download E self package_list w = (w', Ok tt) ->
  candidate_list E package_list w <> [] ->
  exists evs count k,
    trace w' = trace w ++ evs ++ [ELog (MsgSummary count)]
    /\ pauses evs = repeat 1 k
    /\ (count <= k)%nat
    /\ (k <= length (candidate_list E package_list w))%nat.
Proof.
  intros Hrun Hlist.
  destruct (crawl_and_download_unfold E self package_list w)
    as (w1 & evs0 & Ht0 & Hq0 & _ & Hunfold).
  rewrite Hunfold in Hrun.
  destruct (candidate_list E package_list w) as [|x l]; [congruence|].
  destruct (crawl_loop E self _ 1 (x :: l) 0 _) as [w2 [count|e]] eqn:Hloop;
    [|discriminate].
  injection Hrun as <-.
  destruct (crawl_loop_counts E self _ _ _ _ _ _ _ Hloop)
    as (evs1 & k & Ht1 & Hp1 & _ & Hk & Hlen & _).
  destruct (feed_events_observations _ Hq0) as (_ & Hs0 & _).
  exists (evs0 ++ ELog (MsgStart (length (x :: l))) :: evs1), count, k.
  unfold add_event in *. cbn [trace] in *. rewrite Ht1, Ht0.
  split; [now rewrite <- !app_assoc|].
  rewrite pauses_app, Hs0. cbn [app pauses]. rewrite Hp1.
  repeat split; [lia|exact Hlen].
Qed.

Lemma summary_count_is_bounded_witness :
  exists evs count k,
    trace (fst (crawl_and_download Demo.E0 Demo.crawler
                  (Some ["demo"; "old"]) Demo.w0))
    = trace Demo.w0 ++ evs ++ [ELog (MsgSummary count)]
    /\ pauses evs = repeat 1 k
    /\ (count <= k)%nat
    /\ (k <= length (candidate_list Demo.E0 (Some ["demo"; "old"]) Demo.w0))%nat.
Proof.
  apply (summary_count_is_bounded Demo.E0 Demo.crawler (Some ["demo"; "old"])
           Demo.w0 _ eq_refl).
  discriminate.
Defined.

(** X17.  In a run that completes, the progress messages are one per
    candidate, in order, numbered from 1, each with the length of the list
    as the total. *)
Theorem progress_is_numbered_from_one (E : env) (self : PyPICrawler)
    (package_list : option (list string)) (w w' : world) :
  crawl_and_download E self package_list w = (w', Ok tt) ->
  exists evs,
    trace w' = trace w ++ evs
    /\ progress_of evs
       = numbered (length (candidate_list E package_list w)) 1
           (candidate_list E package_list w).
Proof.
  intros Hrun.
  destruct (crawl_and_download_unfold E self package_list w)
    as (w1 & evs0 & Ht0 & Hq0 & _ & Hunfold).
  rewrite Hunfold in Hrun.
  destruct (feed_events_observations _ Hq0) as (_ & _ & Hn0 & _).
  destruct (candidate_list E package_list w) as [|x l].
  - injection Hrun as <-. exists (evs0 ++ [ELog MsgNoList]).
    unfold add_event. cbn [trace]. rewrite Ht0, <- app_assoc.
    split; [reflexivity|]. now rewrite progress_of_app, Hn0.
  - destruct (crawl_loop E self _ 1 (x :: l) 0 _) as [w2 [count|e]] eqn:Hloop;
      [|discriminate].
    injection Hrun as <-.
    destruct (crawl_loop_counts E self _ _ _ _ _ _ _ Hloop)
      as (evs1 & k & Ht1 & _ & _ & _ & _ & Hn1).
    exists (evs0 ++ ELog (MsgStart (length (x :: l))) :: evs1
              ++ [ELog (MsgSummary count)]).
    unfold add_event in *. cbn [trace] in *. rewrite Ht1, Ht0.
    split; [now rewrite <- !app_assoc|].
    rewrite progress_of_app, Hn0. cbn [app progress_of].
    rewrite progress_of_app, Hn1. cbn [progress_of]. now rewrite app_nil_r.
Qed.

Lemma progress_is_numbered_from_one_witness :
  exists evs,
    trace (fst (crawl_and_download Demo.E0 Demo.crawler
                  (Some ["demo"; "old"]) Demo.w0))
    = trace Demo.w0 ++ evs
    /\ progress_of evs = [(1, 2, "demo"); (2, 2, "old")]%nat.
Proof.
  exact (progress_is_numbered_from_one Demo.E0 Demo.crawler
           (Some ["demo"; "old"]) Demo.w0 _ eq_refl).
Defined.

(** X18.  When there is no candidate (the list supplied is empty, or the
    feed gave none), the run only logs that: with a list supplied it does
    nothing else at all, and without one what comes before that message is
    the one request for the feed and the one message of the candidate
    source; so it processes nothing, sends no request for metadata or
    artifact, makes no pause and leaves the disk as it is. *)
Theorem no_candidate_no_work (E : env) (self : PyPICrawler)
    (package_list : option (list string)) (w : world) :
  candidate_list E package_list w = [] ->
  exists w' evs,
    crawl_and_download E self package_list w = (w', Ok tt)
    /\ trace w' = trace w ++ evs ++ [ELog MsgNoList]
    /\ match package_list with
       | Some _ => evs = []
       | None =>
           exists m, evs = [EGet "https://pypi.org/rss/updates.xml" 10; ELog m]
       end
    /\ forallb feed_event evs = true
    /\ processed evs = [] /\ pauses evs = [] /\ requests 30 evs = []
    /\ (forall package_name, ~ In (metadata_url package_name) (requests 10 evs))
    /\ fs w' = fs w.
Proof.
  intros Hlist.
  destruct package_list as [l|].
  - cbn in Hlist. subst l. exists (add_event (ELog MsgNoList) w), [].
    repeat split. intros package_name [].
  - destruct (get_recent_packages_result E w) as (w1 & Hfeed & Hfs).
    destruct (get_recent_packages_events E w) as (m & Htrace & Hm).
    cbn [candidate_list] in Hlist.
    rewrite Hfeed in Htrace, Hlist. cbn [fst snd] in Htrace, Hlist.
    rewrite Hlist in Hfeed.
    exists (add_event (ELog MsgNoList) w1),
      [EGet "https://pypi.org/rss/updates.xml" 10; ELog m].
    split.
    { unfold crawl_and_download. unfold bind at 1. now rewrite Hfeed. }
    split.
    { unfold add_event. cbn [trace]. now rewrite Htrace, <- app_assoc. }
    split; [now exists m|].
    assert (forallb feed_event
              [EGet "https://pypi.org/rss/updates.xml" 10; ELog m] = true)
      as Hevs.
    { destruct Hm as [(e & -> & _)|(r & root & _ & _ & -> & _)]; reflexivity. }
    split; [exact Hevs|].
    destruct (feed_events_observations _ Hevs) as (Hp & Hs & _ & Hr).
    repeat split; try assumption.
    intros package_name. unfold metadata_url.
    cbn [requests Z.eqb Pos.eqb In]. intros [Hurl|[]]. discriminate Hurl.
Qed.

Lemma no_candidate_no_work_witness :
  exists w' evs,
    crawl_and_download Demo.E_down Demo.crawler None Demo.w0 = (w', Ok tt)
    /\ trace w' = trace Demo.w0 ++ evs ++ [ELog MsgNoList]
    /\ (exists m, evs = [EGet "https://pypi.org/rss/updates.xml" 10; ELog m])
    /\ forallb feed_event evs = true
    /\ processed evs = [] /\ pauses evs = [] /\ requests 30 evs = []
    /\ (forall package_name, ~ In (metadata_url package_name) (requests 10 evs))
    /\ fs w' = fs Demo.w0.
Proof.
  apply (no_candidate_no_work Demo.E_down Demo.crawler None Demo.w0).
  reflexivity.
Defined.

(** X19.  The downloader and the candidate source never raise.  The
    metadata fetch raises only what [Response.json] raised outside
    [RequestException], in answer to its request, the status being no
    error.  The recency filter raises only [TypeError] and
    [AttributeError], which its handler for [KeyError], [ValueError] and
    [IndexError] does not catch.  An exception that ends
    [crawl_and_download] is one of these: a [TypeError] or an
    [AttributeError], or what [Response.json] raised outside
    [RequestException] in answer to a metadata request. *)
Theorem what_ends_a_run (E : env) (self : PyPICrawler) :
  (forall package_name w w' e,
     get_package_info E package_name w = (w', Raise e) ->
     exists r,
       server E w (metadata_url package_name) 10 = Some r
       /\ error_status r = false
       /\ json_loads E (content r) = None
       /\ json_failure E (content r) = e
       /\ is_RequestException e = false)
  /\ (forall package_name package_info w,
        exists w' downloaded,
          download_package E self package_name package_info w
          = (w', Ok downloaded))
  /\ (forall w,
        exists w' names, get_recent_packages_from_rss E w = (w', Ok names))
  /\ (forall package_info w w' e,
        is_updated_since_july_2025 E package_info w = (w', Raise e) ->
        is_lookup_or_parse_error e = false
        /\ (e = TypeError \/ e = AttributeError))
  /\ (forall package_list w w' e,
        crawl_and_download E self package_list w = (w', Raise e) ->
        e = TypeError \/ e = AttributeError
        \/ exists package_name w0, parser_escapes E package_name w0 e).
Proof.
  split; [|split; [|split; [|split]]].
  - intros package_name w w' e Hrun.
    destruct (get_package_info_trace E package_name w)
      as (w1 & result & _ & Hget & _ & _ & Hresult).
    rewrite Hrun in Hget. injection Hget as _ <-. exact Hresult.
  - intros. apply download_package_returns.
  - intros w. destruct (get_recent_packages_result E w) as (w' & Hrun & _).
    eauto.
  - intros package_info w w' e Hrun.
    pose proof (is_updated_escapes E package_info w w' e Hrun) as He.
    split; [|exact He]. now destruct He as [->| ->].
  - intros package_list w w' e. apply crawl_and_download_escapes.
Qed.

Lemma what_ends_a_run_witness :
  exists r,
    server Cases.E_long_number Demo.w0 (metadata_url "a") 10 = Some r
    /\ error_status r = false
    /\ json_loads Cases.E_long_number (content r) = None
    /\ json_failure Cases.E_long_number (content r) = ValueError
    /\ is_RequestException ValueError = false.
Proof.
  exact (proj1 (what_ends_a_run Cases.E_long_number Demo.crawler)
           "a" Demo.w0 _ ValueError eq_refl).
Defined.

(** X20.  When every body the server sends in answer to a metadata request,
    with a status that is no error, is not JSON or parses to a document with
    the types of the data model, no exception ends the run, and a run over a
    list that is not empty ends with the summary message. *)
Theorem typed_metadata_run_completes (E : env) (self : PyPICrawler)
    (package_list : option (list string)) (w : world) :
  typed_metadata_only E ->
  exists w',
    crawl_and_download E self package_list w = (w', Ok tt)
    /\ (candidate_list E package_list w <> [] ->
        exists count, last (trace w') = Some (ELog (MsgSummary count))).
Proof. apply run_completes_on_typed_metadata. Qed.

Lemma typed_metadata_run_completes_witness :
  exists w',
    crawl_and_download Cases.E_typed Demo.crawler (Some ["demo"; "old"])
      Demo.w0 = (w', Ok tt)
    /\ (candidate_list Cases.E_typed (Some ["demo"; "old"]) Demo.w0 <> [] ->
        exists count, last (trace w') = Some (ELog (MsgSummary count))).
Proof.
  apply (typed_metadata_run_completes Cases.E_typed Demo.crawler
           (Some ["demo"; "old"]) Demo.w0).
  intros w package_name r.
  cbn [server json_loads json_failure Cases.E_typed]. unfold Demo.answers.
  repeat match goal with
         | |- context [String.eqb ?a ?b] => destruct (String.eqb a b)
         end;
    intros [= <-] Hstatus; first [discriminate Hstatus|reflexivity].
Defined.

(** X21.  On a document with the types of the data model (the version a
    string, the releases a mapping from versions to lists of records whose
    upload time is a string, any attribute possibly missing) the recency
    filter always returns, with no request and the disk unchanged, and it
    returns true exactly when the current version is a key of the releases,
    its file list is not empty, the upload time of its first file parses
    and the parsed date is on or after the cutoff. *)
Theorem typed_document_answer (E : env) (package_info : value) (w : world) :
  is_metadata package_info = true ->
  exists w',
    is_updated_since_july_2025 E package_info w
    = (w', Ok (recent_by_spec E package_info))
    /\ fs w' = fs w
    /\ List.filter is_get (trace w') = List.filter is_get (trace w).
Proof. apply recency_filter_on_typed_metadata. Qed.

Lemma typed_document_answer_witness :
  exists w',
    is_updated_since_july_2025 Demo.E0 Demo.old_info Demo.w0
    = (w', Ok (recent_by_spec Demo.E0 Demo.old_info))
    /\ fs w' = fs Demo.w0
    /\ List.filter is_get (trace w') = List.filter is_get (trace Demo.w0).
Proof.
  apply (typed_document_answer Demo.E0 Demo.old_info Demo.w0). reflexivity.
Defined.

(** ** The search stub *)



(** ** Two more edge cases *)

(** X23.  Metadata that is fetched and parsed but is falsy (an empty
    object, an empty list, [null], 0, an empty string or [false]) is
    treated as absent: the iteration ends after the request, with the count
    unchanged, no pause and no message besides the progress message. *)
Theorem falsy_metadata_is_skipped_silently (E : env) (self : PyPICrawler)
    (total i : nat) (package_name : string) (count : nat) (w : world)
    (r : response) (package_info : value) :
  server E (add_event (ELog (MsgProgress i total package_name)) w)
    (metadata_url package_name) 10 = Some r ->
  error_status r = false ->
  json_loads E (content r) = Some package_info ->
  truthy package_info = false ->
  crawl_step E self total i package_name count w
  = (add_event (EGet (metadata_url package_name) 10)
       (add_event (ELog (MsgProgress i total package_name)) w),
     Ok count).
Proof.
  intros Hserver Hstatus Hjson Hfalsy.
  rewrite crawl_step_unfold.
  unfold get_package_info, try_except, bind, session_get, raise_for_status,
    response_json, ret.
  fold (metadata_url package_name).
  now rewrite Hserver, Hstatus, Hjson, Hfalsy.
Qed.

Lemma falsy_metadata_is_skipped_silently_witness :
  crawl_step Cases.E_empty_object Demo.crawler 1 1 "demo" 0 Demo.w0
  = (add_event (EGet (metadata_url "demo") 10)
       (add_event (ELog (MsgProgress 1 1 "demo")) Demo.w0),
     Ok 0%nat).
Proof.
  apply (falsy_metadata_is_skipped_silently Cases.E_empty_object Demo.crawler
           1 1 "demo" 0 Demo.w0 (Response 200 "empty object") (VDict []));
    reflexivity.
Defined.

Lemma first_with_suffix_member (suffix : string) (files : list value)
    (v : value) :
  first_with_suffix suffix files = Ok v ->
  v = VNone \/ (In v files /\ filename_ends suffix v = true).
Proof.
  induction files as [|file_info rest IH]; cbn [first_with_suffix].
  - intros [= <-]. now left.
  - destruct file_info as [| | | |?|d]; try discriminate.
    cbn [getitem].
    destruct (assoc "filename" d) as [[| | |f| |]|] eqn:Hname;
      try discriminate.
    cbn [res_bind endswith].
    destruct (str_endswith f suffix) eqn:Hends.
    + intros [= <-]. right. split; [now left|].
      unfold filename_ends, field. now rewrite Hname.
    + intros H. destruct (IH H) as [->|[Hin Hv]]; [now left|].
      right. split; [now right|exact Hv].
Qed.

(** X24.  Whatever the file list holds, when the two loops end without an
    exception they have selected nothing or a record of the list whose
    filename is a string that ends in [.tar.gz] or in [.whl]. *)
Theorem selected_record_is_an_archive_or_a_wheel (files : list value)
    (selected : value) :
  select_file files = Ok selected ->
  selected = VNone
  \/ (In selected files
      /\ (filename_ends ".tar.gz" selected = true
          \/ filename_ends ".whl" selected = true)).
Proof.
  unfold select_file.
  destruct (first_with_suffix ".tar.gz" files) as [found|e] eqn:Hfirst;
    [|discriminate].
  cbn [res_bind].
  destruct (truthy found); cbn [negb].
  - intros [= <-].
    destruct (first_with_suffix_member _ _ _ Hfirst) as [->|[Hin Hv]]; auto.
  - intros Hsecond.
    destruct (first_with_suffix_member _ _ _ Hsecond) as [->|[Hin Hv]]; auto.
Qed.

Lemma selected_record_is_an_archive_or_a_wheel_witness :
  Demo.file_record "demo-2.0-py3-none-any.whl" "https://files.example/w" ""
  = VNone
  \/ (In (Demo.file_record "demo-2.0-py3-none-any.whl"
            "https://files.example/w" "")
        [VDict [("filename", VStr "README.txt")];
         Demo.file_record "demo-2.0-py3-none-any.whl"
           "https://files.example/w" ""]
      /\ (filename_ends ".tar.gz"
            (Demo.file_record "demo-2.0-py3-none-any.whl"
               "https://files.example/w" "") = true
          \/ filename_ends ".whl"
               (Demo.file_record "demo-2.0-py3-none-any.whl"
                  "https://files.example/w" "") = true)).
Proof.
  apply (selected_record_is_an_archive_or_a_wheel
           [VDict [("filename", VStr "README.txt")];
            Demo.file_record "demo-2.0-py3-none-any.whl"
              "https://files.example/w" ""]).
  reflexivity.
Defined.
